(** * MyFatoorah payment gateway: notification reconciliation

    A shallow embedding of the Odoo module [myfatoorah_gateway_custom]:
    - [models/payment_provider.py]: the gateway client
      ([_myfatoorah_make_request]) and the webhook signature verifier;
    - [models/payment_transaction.py]: invoice creation, the transaction
      locator and the status reconciler;
    - [controllers/main.py]: the redirect endpoints and the webhook endpoint.

    Python values are JSON-like values ([pyval]); dictionaries are finite
    maps keyed by strings.  Strings are byte strings (the UTF-8 encoding of
    the Python text; an HTTP header value is its latin-1 code points), so a
    character is ASCII exactly when its code is below 128.  JSON floats are
    not part of the model: no field read by the code below is a float.

    Exceptions and the mutable state (the record [self], the transaction
    store, the log of HTTP requests sent to the gateway) are threaded by a
    small state-and-exception monad.  Of logging, only what can raise is
    kept: [pprint.pformat] of a decoded body, which is evaluated before the
    log call and fails on a body nested too deeply.  The translation
    function [_] is taken in the source language: a message is its English
    template with the arguments filled in. *)

From stdpp Require Import gmap strings list pretty.
From Stdlib Require Import ZArith Ascii String Lia.

#[local] Set Warnings "-register-all".
#[local] Open Scope Z_scope.
#[local] Open Scope string_scope.

(** ** Python values *)

Inductive pyval :=
| PNone
| PBool (b : bool)
| PInt (n : Z)
| PStr (s : string)
| PList (l : list pyval)
| PDict (d : gmap string pyval).

(** Python exceptions met by the code.  [ValidationError] is Odoo's; the
    others are the interpreter's. *)
Inductive exn :=
| ValidationError (msg : string)
| AttributeError
| TypeError
| KeyError
| IndexError
| ValueError
| RecursionError.

Inductive outcome (A : Type) :=
| Ok (a : A)
| Raise (e : exn).
Arguments Ok {A} a.
Arguments Raise {A} e.

(** Code that touches no state runs in [outcome]. *)
#[export] Instance outcome_ret : MRet outcome := fun A a => Ok a.
#[export] Instance outcome_bind : MBind outcome := fun A B f m =>
  match m with
  | Ok a => f a
  | Raise e => Raise e
  end.

Definition throw {A} (e : exn) : outcome A := Raise e.

(** ** State and exception monad *)

Definition M (S A : Type) : Type := S -> outcome A * S.

#[export] Instance M_ret {S} : MRet (M S) := fun A a s => (Ok a, s).
#[export] Instance M_bind {S} : MBind (M S) := fun A B f m s =>
  match m s with
  | (Ok a, s') => f a s'
  | (Raise e, s') => (Raise e, s')
  end.

Definition raise {S A} (e : exn) : M S A := fun s => (Raise e, s).
Definition lift {S A} (o : outcome A) : M S A := fun s => (o, s).
Definition get_state {S} : M S S := fun s => (Ok s, s).
Definition modify {S} (f : S -> S) : M S unit := fun s => (Ok tt, f s).

(** [try: m except h]: the handler [h] selects the exceptions it catches
    ([None]: the exception propagates). *)
Definition try_except {S A} (m : M S A) (h : exn -> option (M S A)) : M S A :=
  fun s =>
    match m s with
    | (Ok a, s') => (Ok a, s')
    | (Raise e, s') =>
        match h e with
        | Some k => k s'
        | None => (Raise e, s')
        end
    end.

(** Run a computation on a component of the state. *)
Definition zoom {S T A} (proj : S -> T) (upd : T -> S -> S) (m : M T A) : M S A :=
  fun s =>
    match m (proj s) with
    | (r, t') => (r, upd t' s)
    end.

(** ** Python primitives on values *)

Definition py_truthy (v : pyval) : bool :=
  match v with
  | PNone => false
  | PBool b => b
  | PInt n => negb (n =? 0)%Z
  | PStr s => negb (String.eqb s "")
  | PList l => match l with [] => false | _ => true end
  | PDict d => negb (bool_decide (d = ∅))
  end.

(** [a or b] *)
Definition py_or (a b : pyval) : pyval := if py_truthy a then a else b.

Definition lower_ascii (c : ascii) : ascii :=
  let n := N_of_ascii c in
  if ((65 <=? n) && (n <=? 90))%N then ascii_of_N (n + 32) else c.

Definition upper_ascii (c : ascii) : ascii :=
  let n := N_of_ascii c in
  if ((97 <=? n) && (n <=? 122))%N then ascii_of_N (n - 32) else c.

Fixpoint str_map (f : ascii -> ascii) (s : string) : string :=
  match s with
  | EmptyString => EmptyString
  | String c r => String (f c) (str_map f r)
  end.

(** Case change of the ASCII letters of a byte string: what [lower()] and
    [upper()] do on ASCII text (a header name, an HTTP method).  On
    arbitrary text [lower()] is the interpreter's, see [str_lower]. *)
Definition ascii_lower : string -> string := str_map lower_ascii.
Definition str_upper : string -> string := str_map upper_ascii.

Fixpoint is_ascii (s : string) : bool :=
  match s with
  | EmptyString => true
  | String c r => (N_of_ascii c <? 128)%N && is_ascii r
  end.

(** What the interpreter and its libraries provide and the module does not
    define: [repr] of a list or dictionary (reached by [str] and by [%s]);
    [str.lower()], which follows the Unicode case tables; [json.loads]
    ([None]: the body is not JSON, a [ValueError]) and the bodies it gives
    up on with a [RecursionError] because they nest too deeply; the values
    [pprint.pformat] gives up on in the same way; and the HMAC-SHA256 digest
    of a message under a key. *)
Class PyRuntime := {
  py_repr : pyval -> string;
  str_lower : string -> string;
  json_loads : string -> option pyval;
  json_too_deep : string -> bool;
  pformat_too_deep : pyval -> bool;
  hmac_sha256_digest : string -> string -> string;
}.

Section Python.
Context `{RT : PyRuntime}.

(** [str(v)] *)
Definition py_str (v : pyval) : string :=
  match v with
  | PNone => "None"
  | PBool true => "True"
  | PBool false => "False"
  | PInt n => pretty n
  | PStr s => s
  | PList _ | PDict _ => py_repr v
  end.

(** [v.get(k, dflt)]: only a dictionary has the method. *)
Definition py_get (v : pyval) (k : string) (dflt : pyval) : outcome pyval :=
  match v with
  | PDict d => mret (default dflt (d !! k))
  | _ => throw AttributeError
  end.

(** [v.lower()]: only a string has the method. *)
Definition py_lower (v : pyval) : outcome string :=
  match v with
  | PStr s => mret (str_lower s)
  | _ => throw AttributeError
  end.

Definition last_char (s : string) : string :=
  match last (list_ascii_of_string s) with
  | Some c => String c EmptyString
  | None => EmptyString
  end.

(** [v[-1]] for a truthy [v]. *)
Definition py_last (v : pyval) : outcome pyval :=
  match v with
  | PList l =>
      match last l with
      | Some x => mret x
      | None => throw IndexError
      end
  | PStr s => mret (PStr (last_char s))
  | PDict _ => throw KeyError
  | _ => throw TypeError
  end.

(** The values a [for] loop over [v] visits. *)
Definition py_iter (v : pyval) : outcome (list pyval) :=
  match v with
  | PList l => mret l
  | PDict d => mret ((fun kv => PStr kv.1) <$> map_to_list d)
  | PStr s => mret ((fun c => PStr (String c EmptyString)) <$> list_ascii_of_string s)
  | _ => throw TypeError
  end.

Definition is_dict (v : pyval) : bool :=
  match v with PDict _ => true | _ => false end.

(** [sep.join(items)]: every item has to be a string. *)
Fixpoint py_join (sep : string) (items : list pyval) : outcome string :=
  match items with
  | [] => mret ""
  | [PStr s] => mret s
  | PStr s :: rest => r ← py_join sep rest; mret (s +:+ sep +:+ r)
  | _ :: _ => throw TypeError
  end.

(** ** [hmac] *)

Definition hex_digit (n : N) : ascii :=
  match n with
  | 0 => "0" | 1 => "1" | 2 => "2" | 3 => "3" | 4 => "4" | 5 => "5"
  | 6 => "6" | 7 => "7" | 8 => "8" | 9 => "9" | 10 => "a" | 11 => "b"
  | 12 => "c" | 13 => "d" | 14 => "e" | _ => "f"
  end%N%char.

Fixpoint hexlify (bytes : string) : string :=
  match bytes with
  | EmptyString => EmptyString
  | String c r =>
      let n := N_of_ascii c in
      String (hex_digit (n / 16)) (String (hex_digit (n mod 16)) (hexlify r))
  end.

(** [hmac.new(key, msg, hashlib.sha256).hexdigest()] *)
Definition hmac_sha256_hexdigest (key msg : string) : string :=
  hexlify (hmac_sha256_digest key msg).

(** [hmac.compare_digest(a, b)] on two [str]: equality, and a [TypeError]
    when either string has a non-ASCII character. *)
Definition compare_digest (a b : string) : outcome bool :=
  if is_ascii a && is_ascii b then mret (String.eqb a b) else throw TypeError.

End Python.

(** ** Records of the ORM *)

(** An Odoo [Char] field: [None] is the unset field (read as [False]). *)
Definition char_truthy (f : option string) : bool :=
  match f with
  | Some s => negb (String.eqb s "")
  | None => false
  end.

Definition char_value (f : option string) : pyval :=
  match f with
  | Some s => PStr s
  | None => PBool false
  end.

(** [payment.provider], with the fields of [models/payment_provider.py];
    [p_state] is the provider's [state] ('disabled', 'enabled' or 'test'). *)
Record provider := {
  p_id : Z;
  p_name : string;
  code : string;
  p_state : string;
  myfatoorah_secret_key : option string;
  myfatoorah_test_secret_key : option string;
  myfatoorah_country_code : option string;
  myfatoorah_webhook_secret : option string;
  myfatoorah_webhook_enabled : bool;
}.

Inductive tx_state := draft | pending | authorized | done | cancel | error.

(** [payment.transaction], with the fields the module reads or writes. *)
Record transaction := {
  tx_id : Z;
  reference : string;
  provider_reference : option string;
  provider_code : string;
  provider_id : provider;
  state : tx_state;
  state_message : option string;
}.

Definition set_provider_reference (v : option string) (t : transaction) : transaction :=
  {| tx_id := tx_id t; reference := reference t; provider_reference := v;
     provider_code := provider_code t; provider_id := provider_id t;
     state := state t; state_message := state_message t |}.

(** The four transition primitives of the generic payment framework; the
    module only calls them. *)
Class Lifecycle := {
  _set_done : transaction -> transaction;
  _set_pending : transaction -> transaction;
  _set_canceled : string -> transaction -> transaction;
  _set_error : string -> transaction -> transaction;
}.

Inductive transition :=
| SetDone
| SetPending
| SetCanceled (state_message : string)
| SetError (state_message : string).

Definition run_transition `{LC : Lifecycle} (tr : transition) (t : transaction) : transaction :=
  match tr with
  | SetDone => _set_done t
  | SetPending => _set_pending t
  | SetCanceled m => _set_canceled m t
  | SetError m => _set_error m t
  end.

(** ** The remote gateway *)

(** A request as [requests.post] / [requests.get] sends it. *)
Record http_call := {
  rq_method : string;
  rq_url : string;
  rq_authorization : string;
  rq_json : option pyval;
}.

(** What [requests] gives back: one of its exceptions, or a response with
    its status code and its body decoded by [response.json()] ([None]: the
    body is not JSON, a [ValueError]); [DeepResponse] is a response whose
    body nests too deeply for the decoder, which gives up with a
    [RecursionError]. *)
Inductive http_reply :=
| Timeout
| ConnectionError
| RequestException
| Response (status_code : Z) (json : option pyval)
| DeepResponse (status_code : Z).

(** The network: the reply to a request, given the requests sent before. *)
Class Gateway := { http_send : list http_call -> http_call -> http_reply }.

Definition MYFATOORAH_LIVE_URLS : gmap string string :=
  list_to_map [
    ("SA", "https://api-sa.myfatoorah.com");
    ("AE", "https://api-ae.myfatoorah.com");
    ("QA", "https://api-qa.myfatoorah.com");
    ("EG", "https://api-eg.myfatoorah.com");
    ("KW", "https://api.myfatoorah.com");
    ("BH", "https://api.myfatoorah.com");
    ("JO", "https://api.myfatoorah.com");
    ("OM", "https://api.myfatoorah.com") ].

Definition MYFATOORAH_TEST_URL : string := "https://apitest.myfatoorah.com".

Section GatewayClient.
Context `{RT : PyRuntime} `{GW : Gateway}.

Definition _myfatoorah_get_api_url (self : provider) : string :=
  if String.eqb (p_state self) "test" then MYFATOORAH_TEST_URL
  else
    let country :=
      if char_truthy (myfatoorah_country_code self)
      then default "SA" (myfatoorah_country_code self) else "SA" in
    default (default "" (MYFATOORAH_LIVE_URLS !! "SA")) (MYFATOORAH_LIVE_URLS !! country).

Definition _myfatoorah_get_api_key (self : provider) : outcome string :=
  let key :=
    if String.eqb (p_state self) "test" then myfatoorah_test_secret_key self
    else myfatoorah_secret_key self in
  if negb (char_truthy key) then
    throw (ValidationError
      ("MyFatoorah: Missing API key. Please configure the "
       +:+ (if String.eqb (p_state self) "test" then "Test" else "Live")
       +:+ " secret key in the MyFatoorah payment provider settings."))
  else mret (default "" key).

(** Send one request and record it. *)
Definition send (call : http_call) : M (list http_call) http_reply :=
  fun sent => (Ok (http_send sent call), (sent ++ [call])%list).

(** The request [requests.post] or [requests.get] sends (lines 162-170). *)
Definition make_call (method url authorization : string) (payload : pyval) : http_call :=
  if String.eqb (str_upper method) "POST" then
    {| rq_method := "POST"; rq_url := url;
       rq_authorization := authorization; rq_json := Some payload |}
  else
    {| rq_method := "GET"; rq_url := url;
       rq_authorization := authorization; rq_json := None |}.

(** What becomes of the reply (lines 171-219): the data of a successful
    response, or a [ValidationError].  [response.json()] is under
    [except ValueError] only, and the decoded body is formatted for the log
    (lines 199-203) before it is looked at: a [RecursionError] of either
    leaves the client. *)
Definition handle_reply (reply : http_reply) : outcome pyval :=
  match reply with
  | Timeout =>
      throw (ValidationError
        "MyFatoorah: The request to the payment gateway timed out. Please try again.")
  | ConnectionError =>
      throw (ValidationError
        ("MyFatoorah: Could not connect to the payment gateway. "
         +:+ "Please check your internet connection and try again."))
  | RequestException =>
      throw (ValidationError
        "MyFatoorah: An error occurred while communicating with the payment gateway.")
  | Response _ None =>
      throw (ValidationError
        "MyFatoorah: Received an invalid response from the payment gateway.")
  | DeepResponse _ => throw RecursionError
  | Response status_code (Some response_data) =>
      (if pformat_too_deep response_data then throw RecursionError else mret tt);;
      failed ←
        (if negb (status_code =? 200)%Z then mret true
         else
           is_success ← py_get response_data "IsSuccess" PNone;
           mret (negb (py_truthy is_success)));
      if (failed : bool) then
        error_message ← py_get response_data "Message" (PStr "Unknown error");
        validation_errors ← py_get response_data "ValidationErrors" PNone;
        error_message ←
          (if py_truthy validation_errors then
             items ← py_iter validation_errors;
             errors ← mapM (fun err => py_get err "Error" (PStr ""))
                           (List.filter is_dict items);
             details ← py_join "; " errors;
             mret (py_str error_message +:+ " — " +:+ details)
           else mret (py_str error_message));
        throw (ValidationError ("MyFatoorah: " +:+ error_message))
      else
        py_get response_data "Data" (PDict ∅)
  end.

(** [_myfatoorah_make_request(self, endpoint, payload, method)].
    Formatting the payload for the log (line 159) is taken to succeed: the
    payloads of this module are the status query, a dictionary of two
    entries, and the invoice body of lines 64-106. *)
Definition _myfatoorah_make_request
    (self : provider) (endpoint : string) (payload : pyval) (method : string)
    : M (list http_call) pyval :=
  let api_url := _myfatoorah_get_api_url self in
  api_key ← lift (_myfatoorah_get_api_key self);
  let url := api_url +:+ endpoint in
  reply ← send (make_call method url ("Bearer " +:+ api_key) payload);
  lift (handle_reply reply).

(** [_myfatoorah_verify_webhook_signature(self, raw_body, signature)] *)
Definition _myfatoorah_verify_webhook_signature
    (self : provider) (raw_body signature : string) : outcome bool :=
  if negb (char_truthy (myfatoorah_webhook_secret self)) then mret false
  else
    let expected_signature :=
      hmac_sha256_hexdigest (default "" (myfatoorah_webhook_secret self)) raw_body in
    is_valid ← compare_digest expected_signature signature;
    mret is_valid.

End GatewayClient.

(** ** [payment.transaction]: methods on one record *)

(** The state a method of a transaction record runs in: the record [self],
    the requests sent to the gateway so far, and the transition primitives
    called so far, in order. *)
Record rstate := {
  rs_self : transaction;
  rs_net : list http_call;
  rs_applied : list transition;
}.

Definition with_self (f : transaction -> transaction) (s : rstate) : rstate :=
  {| rs_self := f (rs_self s); rs_net := rs_net s; rs_applied := rs_applied s |}.

Definition with_net (n : list http_call) (s : rstate) : rstate :=
  {| rs_self := rs_self s; rs_net := n; rs_applied := rs_applied s |}.

(** [a or b] on two strings. *)
Definition str_or (a b : string) : string := if String.eqb a "" then b else a.

(** [s in (a, b)] *)
Definition str_in2 (s a b : string) : bool := String.eqb s a || String.eqb s b.

(** The invoice-creation request body (lines 37-106 of
    [payment_transaction.py]): built from the amount, the partner and the
    order lines of the transaction, with rounded floats.  Its content plays
    no part in how the response is handled. *)
Class InvoicePayload := { send_payment_payload : transaction -> pyval }.

Section TransactionMethods.
Context `{RT : PyRuntime} `{GW : Gateway} `{LC : Lifecycle} `{IP : InvoicePayload}.

(** Call a transition primitive on [self]. *)
Definition apply_transition (tr : transition) : M rstate unit :=
  modify (fun s =>
    {| rs_self := run_transition tr (rs_self s); rs_net := rs_net s;
       rs_applied := (rs_applied s ++ [tr])%list |}).

(** [self.provider_id._myfatoorah_make_request(endpoint, payload)] *)
Definition request (p : provider) (endpoint : string) (payload : pyval)
    : M rstate pyval :=
  zoom rs_net with_net (_myfatoorah_make_request p endpoint payload "POST").

(** [_get_specific_processing_values(self, processing_values)]; [res] is
    what the generic method returns. *)
Definition _get_specific_processing_values (res : pyval) : M rstate pyval :=
  self ← get_state;
  let self := rs_self self in
  if negb (String.eqb (provider_code self) "myfatoorah") then mret res
  else
    let provider := provider_id self in
    let payload := send_payment_payload self in
    response_data ← request provider "/v2/SendPayment" payload;
    invoice_url ← lift (py_get response_data "InvoiceURL" PNone);
    invoice_id ← lift (py_get response_data "InvoiceId" PNone);
    if negb (py_truthy invoice_url) then
      raise (ValidationError
        "MyFatoorah: No invoice URL received from the payment gateway.")
    else
      modify (with_self (set_provider_reference
        (Some (if py_truthy invoice_id then py_str invoice_id else ""))));;
      mret (PDict (<["api_url" := invoice_url]>
                  (<["reference" := PStr (reference self)]> ∅))).

(** The status mapping of [_process_notification_data] (lines 299-325). *)
Definition map_status (invoice_status tx_status : string) (latest_tx : pyval)
    : M rstate unit :=
  if String.eqb invoice_status "paid" || String.eqb tx_status "succss" then
    apply_transition SetDone
  else if str_in2 invoice_status "pending" "initiated"
          || str_in2 tx_status "pending" "initiated" then
    apply_transition SetPending
  else if str_in2 invoice_status "expired" "canceled"
          || str_in2 tx_status "expired" "canceled" then
    apply_transition (SetCanceled
      ("MyFatoorah: Payment was " +:+ str_or invoice_status tx_status +:+ "."))
  else if String.eqb invoice_status "failed" || String.eqb tx_status "failed" then
    error_msg ← lift
      (if py_truthy latest_tx then
         err ← py_get latest_tx "Error" (PStr "");
         if py_truthy err then mret err
         else py_get latest_tx "ErrorCode" (PStr "")
       else mret (PStr ""));
    apply_transition (SetError ("MyFatoorah: Payment failed. " +:+ py_str error_msg))
  else
    apply_transition (SetError
      ("MyFatoorah: Received unknown payment status: "
       +:+ str_or invoice_status (str_or tx_status "unknown"))).

(** Lines 278-325: what is done with the data of a status response.  The
    data formatted for the log at lines 273-276 is part of the body the
    client has formatted already, further down the call stack. *)
Definition process_status_data (status_data : pyval) : M rstate unit :=
  raw_status ← lift (py_get status_data "InvoiceStatus" (PStr ""));
  invoice_status ← lift (py_lower raw_status);
  invoice_id_resp ← lift (py_get status_data "InvoiceId" PNone);
  s ← get_state;
  (if py_truthy invoice_id_resp
      && negb (char_truthy (provider_reference (rs_self s))) then
     modify (with_self (set_provider_reference (Some (py_str invoice_id_resp))))
   else mret tt);;
  transactions ← lift (py_get status_data "InvoiceTransactions" (PList []));
  '(latest_tx, tx_status) ← lift
    (if py_truthy transactions then
       latest_tx ← py_last transactions;
       raw_tx_status ← py_get latest_tx "TransactionStatus" (PStr "");
       tx_status ← py_lower raw_tx_status;
       mret (latest_tx, tx_status)
     else mret (PNone, invoice_status));
  map_status invoice_status tx_status latest_tx.

(** The key of the status query (lines 240-255); [None]: neither
    identifier is available. *)
Definition status_query_key (payment_id invoice_id : pyval) : option (pyval * string) :=
  if py_truthy payment_id then Some (payment_id, "PaymentId")
  else if py_truthy invoice_id then Some (invoice_id, "InvoiceId")
  else None.

(** [_process_notification_data(self, notification_data)] *)
Definition _process_notification_data (notification_data : gmap string pyval)
    : M rstate unit :=
  s ← get_state;
  let self := rs_self s in
  if negb (String.eqb (provider_code self) "myfatoorah") then mret tt
  else
    let payment_id := default PNone (notification_data !! "paymentId") in
    let invoice_id :=
      py_or (default PNone (notification_data !! "InvoiceId"))
            (char_value (provider_reference self)) in
    match status_query_key payment_id invoice_id with
    | None =>
        apply_transition (SetError
          "MyFatoorah: Missing payment identification in the notification.")
    | Some (key, key_type) =>
        fetched ←
          try_except
            (status_data ←
               request (provider_id self) "/v2/GetPaymentStatus"
                 (PDict (<["Key" := PStr (py_str key)]>
                         (<["KeyType" := PStr key_type]> ∅)));
             mret (Some status_data))
            (fun e =>
               match e with
               | ValidationError _ =>
                   Some (apply_transition (SetError
                           "MyFatoorah: Failed to verify payment status.");;
                         mret None)
               | _ => None
               end);
        match fetched with
        | None => mret tt
        | Some status_data => process_status_data status_data
        end
    end.

End TransactionMethods.

(** ** The transaction store and the locator *)

(** The database as the controllers see it: the transactions and the
    providers, each in the order [search] returns them, the requests sent to
    the gateway so far and the notes posted on transactions. *)
Record world := {
  w_transactions : list transaction;
  w_providers : list provider;
  w_net : list http_call;
  w_notes : list (Z * string);
}.

Definition w_with_net (n : list http_call) (w : world) : world :=
  {| w_transactions := w_transactions w; w_providers := w_providers w;
     w_net := n; w_notes := w_notes w |}.

(** A domain leaf [(field, '=', value)] on a [Char] field.  The operands
    the locator passes are strings; any other operand matches no record. *)
Definition leaf_eq (field : option string) (value : pyval) : bool :=
  match value with
  | PStr s => bool_decide (field = Some s)
  | _ => false
  end.

(** [self.search(domain, limit=1)] on [payment.transaction]. *)
Definition search_transactions (domain : transaction -> bool) : M world (list transaction) :=
  fun w => (Ok (take 1 (List.filter domain (w_transactions w))), w).

(** [search(domain)] on [payment.provider]. *)
Definition search_providers (domain : provider -> bool) : M world (list provider) :=
  fun w => (Ok (List.filter domain (w_providers w)), w).

Definition by_reference (value : pyval) (t : transaction) : bool :=
  leaf_eq (Some (reference t)) value && String.eqb (provider_code t) "myfatoorah".

Definition by_provider_reference (value : pyval) (t : transaction) : bool :=
  leaf_eq (provider_reference t) value && String.eqb (provider_code t) "myfatoorah".

(** [('code', '=', 'myfatoorah'), ('state', 'in', ['enabled', 'test'])] *)
Definition active_provider (p : provider) : bool :=
  String.eqb (code p) "myfatoorah" && str_in2 (p_state p) "enabled" "test".

Definition nonempty {A} (l : list A) : bool :=
  match l with [] => false | _ => true end.

(** What the generic payment framework and the other installed modules
    provide: the inherited lookup ([super()._get_tx_from_notification_data]),
    the generic [_handle_notification_data] entry point and [message_post]. *)
Class Framework := {
  super_get_tx_from_notification_data :
    string -> gmap string pyval -> M world (list transaction);
  _handle_notification_data :
    list transaction -> string -> gmap string pyval -> M world unit;
  message_post : list transaction -> string -> M world unit;
}.

Section Locator.
Context `{RT : PyRuntime} `{GW : Gateway} `{FW : Framework}.

(** The body of the [try] of the loop over providers (lines 188-207);
    [Some tx] is [return tx]. *)
Definition lookup_with_provider (provider : provider) (payment_id : pyval)
    : M world (option (list transaction)) :=
  status_data ←
    zoom w_net w_with_net
      (_myfatoorah_make_request provider "/v2/GetPaymentStatus"
         (PDict (<["Key" := payment_id]> (<["KeyType" := PStr "PaymentId"]> ∅)))
         "POST");
  ref ← lift (py_get status_data "CustomerReference" PNone);
  inv_id ← lift (py_get status_data "InvoiceId" PNone);
  by_ref ← (if py_truthy ref then search_transactions (by_reference ref)
            else mret []);
  if nonempty by_ref then mret (Some by_ref)
  else
    by_inv ← (if py_truthy inv_id
              then search_transactions (by_provider_reference (PStr (py_str inv_id)))
              else mret []);
    if nonempty by_inv then mret (Some by_inv) else mret None.

(** The loop over providers (lines 186-212): an exception of any kind in
    the body moves on to the next provider. *)
Fixpoint lookup_via_gateway (providers : list provider) (payment_id : pyval)
    : M world (option (list transaction)) :=
  match providers with
  | [] => mret None
  | provider :: rest =>
      found ← try_except (lookup_with_provider provider payment_id)
                         (fun _ => Some (mret None));
      match found with
      | Some tx => mret (Some tx)
      | None => lookup_via_gateway rest payment_id
      end
  end.

Definition not_found_message (reference payment_id invoice_id : pyval) : string :=
  "MyFatoorah: No transaction found matching the notification data (reference: "
  +:+ py_str reference +:+ ", paymentId: " +:+ py_str payment_id
  +:+ ", invoiceId: " +:+ py_str invoice_id +:+ ").".

(** [_get_tx_from_notification_data(self, provider_code, notification_data)] *)
Definition _get_tx_from_notification_data
    (provider_code : string) (notification_data : gmap string pyval)
    : M world (list transaction) :=
  tx ← super_get_tx_from_notification_data provider_code notification_data;
  if negb (String.eqb provider_code "myfatoorah") || (List.length tx =? 1)%nat then mret tx
  else
    let reference := default PNone (notification_data !! "CustomerReference") in
    let payment_id := default PNone (notification_data !! "paymentId") in
    let invoice_id := default PNone (notification_data !! "InvoiceId") in
    tx ← (if py_truthy reference then search_transactions (by_reference reference)
          else mret []);
    if nonempty tx then mret tx
    else
      tx ← (if py_truthy invoice_id
            then search_transactions (by_provider_reference (PStr (py_str invoice_id)))
            else mret []);
      if nonempty tx then mret tx
      else
        found ←
          (if py_truthy payment_id then
             providers ← search_providers active_provider;
             lookup_via_gateway providers payment_id
           else mret None);
        match found with
        | Some tx => mret tx
        | None =>
            raise (ValidationError (not_found_message reference payment_id invoice_id))
        end.

End Locator.

(** What the first two tiers of the locator find in a store. *)
Section Tiers.
Context `{RT : PyRuntime}.

Definition found_by_reference (n : gmap string pyval) (w : world) : list transaction :=
  let reference := default PNone (n !! "CustomerReference") in
  if py_truthy reference
  then take 1 (List.filter (by_reference reference) (w_transactions w))
  else [].

Definition found_by_invoice_id (n : gmap string pyval) (w : world) : list transaction :=
  let invoice_id := default PNone (n !! "InvoiceId") in
  if py_truthy invoice_id
  then take 1 (List.filter (by_provider_reference (PStr (py_str invoice_id)))
                           (w_transactions w))
  else [].

(** The status request the third tier sends for [provider]. *)
Definition lookup_call (provider : provider) (api_key : string) (payment_id : pyval)
    : http_call :=
  {| rq_method := "POST";
     rq_url := _myfatoorah_get_api_url provider +:+ "/v2/GetPaymentStatus";
     rq_authorization := "Bearer " +:+ api_key;
     rq_json := Some (PDict (<["Key" := payment_id]>
                            (<["KeyType" := PStr "PaymentId"]> ∅))) |}.

End Tiers.

Section RoundTrip.
Context `{RT : PyRuntime} `{GW : Gateway}.

(** The third tier as the specification words it: each enabled or test
    provider in turn is asked for the payment, and tiers 1-2 are retried
    against the identifiers of its response, the first hit winning; a
    provider whose call fails, or whose response names no stored
    transaction, is passed over.  The result is the record found, if any,
    and the store with the requests sent. *)
Fixpoint claimed_round_trip (providers : list provider) (payment_id : pyval)
    (w : world) : option (list transaction) * world :=
  match providers with
  | [] => (None, w)
  | provider :: rest =>
      let status :=
        _myfatoorah_make_request provider "/v2/GetPaymentStatus"
          (PDict (<["Key" := payment_id]> (<["KeyType" := PStr "PaymentId"]> ∅)))
          "POST" (w_net w) in
      let w' := w_with_net status.2 w in
      match status.1 with
      | Ok (PDict response) =>
          if nonempty (found_by_reference response w')
          then (Some (found_by_reference response w'), w')
          else if nonempty (found_by_invoice_id response w')
          then (Some (found_by_invoice_id response w'), w')
          else claimed_round_trip rest payment_id w'
      | _ => claimed_round_trip rest payment_id w'
      end
  end.

End RoundTrip.

(** ** The controllers *)

Record http_request := {
  body : string;
  headers : list (string * string);
}.

(** [headers.get(name, '')]: header names compare without case. *)
Definition headers_get (hs : list (string * string)) (name : string) : string :=
  match List.find (fun h => String.eqb (ascii_lower h.1) (ascii_lower name)) hs with
  | Some h => h.2
  | None => ""
  end.

Inductive response :=
| JsonResponse (status message : string) (http_status : Z)
| Redirect (location : string).

(** [v in (a, b)] for a value and two string constants. *)
Definition py_in2 (v : pyval) (a b : string) : bool :=
  match v with
  | PStr s => str_in2 s a b
  | _ => false
  end.

Definition webhook_provider (p : provider) : bool :=
  active_provider p && myfatoorah_webhook_enabled p.

(** The signature header of a webhook request (lines 157-160). *)
Definition request_signature (req : http_request) : string :=
  let signature := headers_get (headers req) "MyFatoorah-Signature" in
  if String.eqb signature "" then headers_get (headers req) "myfatoorah-signature"
  else signature.

Section Controllers.
Context `{RT : PyRuntime} `{GW : Gateway} `{FW : Framework}.

(** Lines 52-69 and 96-113: the two redirect endpoints differ in the
    ['status'] entry only.  What they format for the log is the query
    parameters, a dictionary of strings. *)
Definition redirect_notification_data (payment_id status : string) : gmap string pyval :=
  <["paymentId" := PStr payment_id]> (<["status" := PStr status]> ∅).

Definition redirect_endpoint (status : string) (kwargs : gmap string string)
    : M world response :=
  match kwargs !! "paymentId" with
  | Some payment_id =>
      if String.eqb payment_id "" then mret (Redirect "/payment/status")
      else
        let notification_data := redirect_notification_data payment_id status in
        try_except
          (tx_sudo ← _get_tx_from_notification_data "myfatoorah" notification_data;
           _handle_notification_data tx_sudo "myfatoorah" notification_data)
          (fun _ => Some (mret tt));;
        mret (Redirect "/payment/status")
  | None => mret (Redirect "/payment/status")
  end.

Definition myfatoorah_return : gmap string string -> M world response :=
  redirect_endpoint "success".

Definition myfatoorah_error : gmap string string -> M world response :=
  redirect_endpoint "error".

(** [_process_webhook_event(self, event_type, event_data, provider)].  The
    data it formats for the log in its last two branches (lines 289, 296) is
    the body, or its [Data] entry, that the endpoint has formatted at line
    153 already. *)
Definition _process_webhook_event
    (event_type event_data : pyval) (provider : provider) : M world unit :=
  data ← lift (py_get event_data "Data" event_data);
  invoice_id ← lift (py_get data "InvoiceId" PNone);
  payment_id ← lift (py_get data "PaymentId" PNone);
  customer_reference ← lift (py_get data "CustomerReference" PNone);
  if py_in2 event_type "PAYMENT_STATUS_CHANGED" "TransactionStatusChanged" then
    let notification_data : gmap string pyval :=
      <["InvoiceId" := invoice_id]>
      (<["paymentId" := payment_id]>
      (<["CustomerReference" := customer_reference]>
      (<["webhook_event" := event_type]> ∅))) in
    tx_sudo ← _get_tx_from_notification_data "myfatoorah" notification_data;
    _handle_notification_data tx_sudo "myfatoorah" notification_data
  else if py_in2 event_type "REFUND_STATUS_CHANGED" "RefundStatusChanged" then
    raw_refund_status ← lift (py_get data "RefundStatus" (PStr ""));
    refund_status ← lift (py_lower raw_refund_status);
    if py_truthy invoice_id then
      tx_sudo ← search_transactions (by_provider_reference (PStr (py_str invoice_id)));
      if nonempty tx_sudo then
        message_post tx_sudo
          ("MyFatoorah Webhook: Refund status changed to '" +:+ refund_status
           +:+ "' for invoice " +:+ py_str invoice_id +:+ ".")
      else mret tt
    else mret tt
  else mret tt.

(** The loop of lines 185-189: the first provider whose verifier accepts
    the signature. *)
Fixpoint first_verified (providers : list provider) (raw_body signature : string)
    : M world (option provider) :=
  match providers with
  | [] => mret None
  | provider :: rest =>
      ok ← lift (_myfatoorah_verify_webhook_signature provider raw_body signature);
      if (ok : bool) then mret (Some provider)
      else first_verified rest raw_body signature
  end.

(** [myfatoorah_webhook(self, **kwargs)]; an outcome [Raise] is an
    exception that leaves the controller (the server answers 500).  The
    [try] around [json.loads] catches [ValueError] and [TypeError] only, and
    the decoded body is formatted for the log (lines 151-154) before the
    signature is read: a [RecursionError] of either leaves the endpoint. *)
Definition myfatoorah_webhook (req : http_request) : M world response :=
  let raw_body := body req in
  if json_too_deep raw_body then raise RecursionError
  else
    match json_loads raw_body with
    | None => mret (JsonResponse "error" "Invalid JSON body" 400)
    | Some event_data =>
        if pformat_too_deep event_data then raise RecursionError
        else
          let signature := request_signature req in
          event ← lift (py_get event_data "Event" PNone);
          event_type ← lift (if py_truthy event then mret event
                             else py_get event_data "EventType" (PStr "Unknown"));
          providers ← search_providers webhook_provider;
          if negb (nonempty providers) then
            mret (JsonResponse "error" "No active webhook provider" 400)
          else
            matching_provider ← first_verified providers raw_body signature;
            match matching_provider with
            | None => mret (JsonResponse "error" "Invalid signature" 401)
            | Some provider =>
                try_except
                  (_process_webhook_event event_type event_data provider;;
                   mret (JsonResponse "ok" "Event processed successfully" 200))
                  (fun _ => Some (mret
                     (JsonResponse "ok" "Event received but processing failed" 200)))
            end
    end.

End Controllers.

(** ** The documented shape of the gateway's replies

    The status response consumed by the module is
    [{IsSuccess, Message, ValidationErrors, Data: {InvoiceId, InvoiceStatus,
    CustomerReference, InvoiceTransactions: [{TransactionStatus, Error,
    ErrorCode}, ...]}}].  The predicates below say that the text fields are
    strings where present, that the entries are objects and that the body
    is decoded and formatted within the recursion limit. *)

(** The string at key [k], [""] when the key is absent. *)
Definition text_field (d : gmap string pyval) (k : string) : option string :=
  match d !! k with
  | None => Some ""
  | Some (PStr s) => Some s
  | Some _ => None
  end.

(** The list at ["InvoiceTransactions"]; absent and [null] count as empty. *)
Definition transactions_of (sd : gmap string pyval) : option (list pyval) :=
  match sd !! "InvoiceTransactions" with
  | None | Some PNone => Some []
  | Some (PList l) => Some l
  | Some _ => None
  end.

Definition entry_shape_ok (e : pyval) : bool :=
  match e with
  | PDict ed => bool_decide (is_Some (text_field ed "TransactionStatus"))
  | _ => false
  end.

Definition status_shape_ok (sd : gmap string pyval) : bool :=
  bool_decide (is_Some (text_field sd "InvoiceStatus"))
  && match transactions_of sd with
     | Some l => match last l with Some e => entry_shape_ok e | None => true end
     | None => false
     end.





(** ** The status mapping as the specification words it *)

Definition claimed_invoice_status `{RT : PyRuntime} (sd : gmap string pyval) : string :=
  str_lower (default "" (text_field sd "InvoiceStatus")).

(** The last entry of the transaction list, when the list is non-empty. *)
Definition claimed_latest (sd : gmap string pyval) : option (gmap string pyval) :=
  match last (default [] (transactions_of sd)) with
  | Some (PDict e) => Some e
  | _ => None
  end.

(** The effective status: the last entry's [TransactionStatus] when
    [InvoiceTransactions] is non-empty, otherwise [InvoiceStatus]; compared
    without case. *)
Definition claimed_effective_status `{RT : PyRuntime} (sd : gmap string pyval) : string :=
  match claimed_latest sd with
  | Some e => str_lower (default "" (text_field e "TransactionStatus"))
  | None => claimed_invoice_status sd
  end.

(** The text built from the latest entry's [Error] or [ErrorCode]. *)
Definition claimed_error_text `{RT : PyRuntime} (latest : option (gmap string pyval))
    : string :=
  match latest with
  | Some e =>
      py_str (py_or (default (PStr "") (e !! "Error"))
                    (default (PStr "") (e !! "ErrorCode")))
  | None => ""
  end.

(** The rules of the mapping, each on its own as the specification lists
    them: [tr] is a transition they allow for the invoice-level status [inv]
    and the effective status [eff]. *)
Definition claimed_rules (inv eff : string) (tr : transition) : Prop :=
  (inv = "paid" ∨ eff = "succss" -> tr = SetDone)
  /\ (inv ∈ ["pending"; "initiated"] ∨ eff ∈ ["pending"; "initiated"] -> tr = SetPending)
  /\ (inv ∈ ["expired"; "canceled"] ∨ eff ∈ ["expired"; "canceled"] ->
      exists m, tr = SetCanceled m)
  /\ (inv = "failed" ∨ eff = "failed" -> exists m, tr = SetError m).

(** The same rules tried in the order listed, the first that matches
    applied.  *)
Definition claimed_mapping `{RT : PyRuntime}
    (inv eff : string) (latest : option (gmap string pyval)) : transition :=
  if bool_decide (inv = "paid" ∨ eff = "succss") then SetDone
  else if bool_decide (inv ∈ ["pending"; "initiated"] ∨ eff ∈ ["pending"; "initiated"])
  then SetPending
  else if bool_decide (inv ∈ ["expired"; "canceled"] ∨ eff ∈ ["expired"; "canceled"])
  then SetCanceled ("MyFatoorah: Payment was "
                    +:+ (if bool_decide (inv = "") then eff else inv) +:+ ".")
  else if bool_decide (inv = "failed" ∨ eff = "failed")
  then SetError ("MyFatoorah: Payment failed. " +:+ claimed_error_text latest)
  else SetError ("MyFatoorah: Received unknown payment status: "
                 +:+ (if bool_decide (inv = "") then
                        (if bool_decide (eff = "") then "unknown" else eff)
                      else inv)).

Definition claimed_transition `{RT : PyRuntime} (sd : gmap string pyval) : transition :=
  claimed_mapping (claimed_invoice_status sd) (claimed_effective_status sd)
                  (claimed_latest sd).

(** Step 3 of the reconciler: [provider_reference] is filled from the
    response's [InvoiceId] if it is not already set. *)
Definition claimed_backfill `{RT : PyRuntime} (sd : gmap string pyval) (t : transaction)
    : transaction :=
  let invoice_id := default PNone (sd !! "InvoiceId") in
  if py_truthy invoice_id && negb (char_truthy (provider_reference t))
  then set_provider_reference (Some (py_str invoice_id)) t
  else t.

(** The request body of a status query. *)
Definition status_query (key : string) (key_type : string) : pyval :=
  PDict (<["Key" := PStr key]> (<["KeyType" := PStr key_type]> ∅)).

(** The transition primitives act on the lifecycle fields only, and
    applying one twice is applying it once. *)
Definition lifecycle_frame `{LC : Lifecycle} : Prop :=
  forall tr t,
    provider_reference (run_transition tr t) = provider_reference t
    /\ provider_code (run_transition tr t) = provider_code t
    /\ provider_id (run_transition tr t) = provider_id t.

Definition lifecycle_idempotent `{LC : Lifecycle} : Prop :=
  forall tr t, run_transition tr (run_transition tr t) = run_transition tr t.

(** ** The effect of the reconciler, as functions

    [mapped_transition] and [status_plan] compute which primitive the
    mapping of lines 278-325 calls (or which exception leaves it), and the
    value the backfill of line 283 would write; [run_plan] performs them.
    The lemmas below relate them to [map_status] and
    [process_status_data]. *)

Section Plan.
Context `{RT : PyRuntime} `{LC : Lifecycle}.

Definition mapped_transition (invoice_status tx_status : string) (latest_tx : pyval)
    : outcome transition :=
  if String.eqb invoice_status "paid" || String.eqb tx_status "succss" then
    mret SetDone
  else if str_in2 invoice_status "pending" "initiated"
          || str_in2 tx_status "pending" "initiated" then
    mret SetPending
  else if str_in2 invoice_status "expired" "canceled"
          || str_in2 tx_status "expired" "canceled" then
    mret (SetCanceled
      ("MyFatoorah: Payment was " +:+ str_or invoice_status tx_status +:+ "."))
  else if String.eqb invoice_status "failed" || String.eqb tx_status "failed" then
    error_msg ←
      (if py_truthy latest_tx then
         err ← py_get latest_tx "Error" (PStr "");
         if py_truthy err then mret err
         else py_get latest_tx "ErrorCode" (PStr "")
       else mret (PStr ""));
    mret (SetError ("MyFatoorah: Payment failed. " +:+ py_str error_msg))
  else
    mret (SetError
      ("MyFatoorah: Received unknown payment status: "
       +:+ str_or invoice_status (str_or tx_status "unknown"))).

Definition status_head (status_data : pyval) : outcome (string * pyval) :=
  raw_status ← py_get status_data "InvoiceStatus" (PStr "");
  invoice_status ← py_lower raw_status;
  invoice_id_resp ← py_get status_data "InvoiceId" PNone;
  mret (invoice_status, invoice_id_resp).

Definition status_tail (status_data : pyval) (invoice_status : string)
    : outcome transition :=
  transactions ← py_get status_data "InvoiceTransactions" (PList []);
  '(latest_tx, tx_status) ←
    (if py_truthy transactions then
       latest_tx ← py_last transactions;
       raw_tx_status ← py_get latest_tx "TransactionStatus" (PStr "");
       tx_status ← py_lower raw_tx_status;
       mret (latest_tx, tx_status)
     else mret (PNone, invoice_status));
  mapped_transition invoice_status tx_status latest_tx.

Definition status_plan (status_data : pyval) : option string * outcome transition :=
  match status_head status_data with
  | Raise e => (None, Raise e)
  | Ok (invoice_status, invoice_id_resp) =>
      (if py_truthy invoice_id_resp then Some (py_str invoice_id_resp) else None,
       status_tail status_data invoice_status)
  end.

(** The plan after the status call of lines 258-271: [fetched] is what
    the call returned or raised. *)
Definition fetch_plan (fetched : outcome pyval) : option string * outcome transition :=
  match fetched with
  | Ok status_data => status_plan status_data
  | Raise (ValidationError _) =>
      (None, Ok (SetError "MyFatoorah: Failed to verify payment status."))
  | Raise e => (None, Raise e)
  end.

Definition backfill_with (v : option string) (t : transaction) : transaction :=
  match v with
  | Some r =>
      if char_truthy (provider_reference t) then t
      else set_provider_reference (Some r) t
  | None => t
  end.

Definition run_plan (v : option string) (trs : list transition) (s : rstate) : rstate :=
  {| rs_self := foldl (fun t tr => run_transition tr t) (backfill_with v (rs_self s)) trs;
     rs_net := rs_net s;
     rs_applied := (rs_applied s ++ trs)%list |}.

Definition plan_transitions (plan : option string * outcome transition)
    : list transition :=
  match plan.2 with
  | Ok tr => [tr]
  | Raise _ => []
  end.

Definition plan_outcome (plan : option string * outcome transition) : outcome unit :=
  match plan.2 with
  | Ok _ => Ok tt
  | Raise e => Raise e
  end.

Definition finish_plan (plan : option string * outcome transition) (s : rstate)
    : outcome unit * rstate :=
  (plan_outcome plan, run_plan plan.1 (plan_transitions plan) s).

End Plan.

(** ** Instances to run the definitions on *)

#[export] Instance tx_state_eq_dec : EqDecision tx_state.
Proof. solve_decision. Defined.

(** The guard of the payment framework's [_update_state]: a transition
    applies from its allowed source states only. *)
Definition update_state (allowed : list tx_state) (target : tx_state)
    (message : option string) (t : transaction) : transaction :=
  if bool_decide (state t ∈ allowed) then
    {| tx_id := tx_id t; reference := reference t;
       provider_reference := provider_reference t;
       provider_code := provider_code t; provider_id := provider_id t;
       state := target; state_message := message |}
  else t.

Definition guarded_lifecycle : Lifecycle := {|
  _set_done := update_state [draft; pending; authorized; error] done None;
  _set_pending := update_state [draft] pending None;
  _set_canceled := fun m => update_state [draft; pending; authorized] cancel (Some m);
  _set_error := fun m => update_state [draft; pending; authorized] error (Some m);
|}.

Definition quoted (s : string) : string :=
  String (ascii_of_N 34) s +:+ String (ascii_of_N 34) EmptyString.

Definition payment_event_body : string :=
  "{" +:+ quoted "Event" +:+ ": " +:+ quoted "PAYMENT_STATUS_CHANGED" +:+ "}".

(** A small runtime: [json.loads] knows two bodies, the digest is a toy,
    [lower()] knows the ASCII letters and nothing nests too deeply. *)
Definition sample_runtime : PyRuntime := {|
  py_repr := fun _ => "<object>";
  str_lower := ascii_lower;
  json_too_deep := fun _ => false;
  pformat_too_deep := fun _ => false;
  json_loads := fun s =>
    if String.eqb s "{}" then Some (PDict ∅)
    else if String.eqb s payment_event_body
    then Some (PDict (<["Event" := PStr "PAYMENT_STATUS_CHANGED"]> ∅))
    else None;
  hmac_sha256_digest := fun key msg => key +:+ msg;
|}.

(** A gateway that answers every request with [r]. *)
Definition constant_gateway (r : http_reply) : Gateway := {| http_send := fun _ _ => r |}.

Definition sample_framework : Framework := {|
  super_get_tx_from_notification_data := fun _ _ => mret [];
  _handle_notification_data := fun _ _ _ => mret tt;
  message_post := fun tx text =>
    modify (fun w =>
      {| w_transactions := w_transactions w; w_providers := w_providers w;
         w_net := w_net w;
         w_notes := (w_notes w ++ ((fun t => (tx_id t, text)) <$> tx))%list |});
|}.

Definition sample_payload : InvoicePayload := {| send_payment_payload := fun _ => PDict ∅ |}.

Definition sample_provider : provider := {|
  p_id := 1; p_name := "MyFatoorah"; code := "myfatoorah"; p_state := "test";
  myfatoorah_secret_key := None; myfatoorah_test_secret_key := Some "token";
  myfatoorah_country_code := Some "SA";
  myfatoorah_webhook_secret := Some "s3cret"; myfatoorah_webhook_enabled := true;
|}.

Definition sample_tx : transaction := {|
  tx_id := 7; reference := "S00042"; provider_reference := None;
  provider_code := "myfatoorah"; provider_id := sample_provider;
  state := draft; state_message := None;
|}.

Definition sample_rstate : rstate :=
  {| rs_self := sample_tx; rs_net := []; rs_applied := [] |}.

(** A successful status response with data [sd]. *)
Definition success_reply (sd : gmap string pyval) : http_reply :=
  Response 200 (Some (PDict (<["IsSuccess" := PBool true]> (<["Data" := PDict sd]> ∅)))).

Definition paid_data : gmap string pyval :=
  <["InvoiceId" := PInt 6012345]>
  (<["InvoiceStatus" := PStr "Paid"]> (<["InvoiceTransactions" := PList []]> ∅)).

Definition sample_call (endpoint : string) (payload : pyval) : http_call :=
  {| rq_method := "POST";
     rq_url := "https://apitest.myfatoorah.com" +:+ endpoint;
     rq_authorization := "Bearer token";
     rq_json := Some payload |}.

Definition sample_world (txs : list transaction) (ps : list provider) : world :=
  {| w_transactions := txs; w_providers := ps; w_net := []; w_notes := [] |}.

Definition referenced_rstate : rstate :=
  {| rs_self := set_provider_reference (Some "5998877") sample_tx;
     rs_net := []; rs_applied := [] |}.

Definition invoice_data : gmap string pyval :=
  <["InvoiceURL" := PStr "https://demo.myfatoorah.com/pay/0101"]> ∅.

(** Stores and requests for the locator and the webhook endpoint. *)
Definition stripe_provider : provider := {|
  p_id := 2; p_name := "Stripe"; code := "stripe"; p_state := "enabled";
  myfatoorah_secret_key := None; myfatoorah_test_secret_key := None;
  myfatoorah_country_code := None;
  myfatoorah_webhook_secret := None; myfatoorah_webhook_enabled := false;
|}.

Definition other_provider_tx : transaction := {|
  tx_id := 8; reference := "S00043"; provider_reference := None;
  provider_code := "stripe"; provider_id := stripe_provider;
  state := draft; state_message := None;
|}.

Definition unnamed_tx : transaction := {|
  tx_id := 9; reference := ""; provider_reference := None;
  provider_code := "myfatoorah"; provider_id := sample_provider;
  state := draft; state_message := None;
|}.

Definition reference_payload (r : string) : gmap string pyval :=
  <["CustomerReference" := PStr r]> ∅.

Definition webhook_like_payload : gmap string pyval :=
  <["CustomerReference" := PStr "S00099"]> (<["paymentId" := PStr "0808"]> ∅).

Definition signed_request (raw_body signature : string) : http_request :=
  {| body := raw_body; headers := [("MyFatoorah-Signature", signature)] |}.

(** A header value with one character outside ASCII (code 233). *)
Definition non_ascii_signature : string := String (ascii_of_N 233) EmptyString.

(** A single-bit mutation of a signature: the top bit of its first
    character. *)
Definition flip_top_bit (s : string) : string :=
  match s with
  | EmptyString => EmptyString
  | String c r => String (ascii_of_N (N.lxor (N_of_ascii c) 128)) r
  end.

(** ** More inputs to run the definitions on *)

(** An entry of [ValidationErrors] as the gateway sends it. *)
Definition validation_error (field : string * string) : pyval :=
  PDict (<["Name" := PStr field.1]> (<["Error" := PStr field.2]> ∅)).

(** The key of the environment the provider is in. *)
Definition active_key (p : provider) : option string :=
  if String.eqb (p_state p) "test" then myfatoorah_test_secret_key p
  else myfatoorah_secret_key p.

Definition live_provider : provider := {|
  p_id := 3; p_name := "MyFatoorah"; code := "myfatoorah"; p_state := "enabled";
  myfatoorah_secret_key := Some "live-token"; myfatoorah_test_secret_key := None;
  myfatoorah_country_code := Some "XX";
  myfatoorah_webhook_secret := None; myfatoorah_webhook_enabled := false;
|}.

Definition rejected_fields : list (string * string) :=
  [("InvoiceValue", "must be positive"); ("CustomerName", "is required")].

Definition rejected_body : gmap string pyval :=
  <["IsSuccess" := PBool false]>
  (<["Message" := PStr "Invalid data"]>
  (<["ValidationErrors" := PList (validation_error <$> rejected_fields)]> ∅)).

Definition rejected_reply : http_reply := Response 400 (Some (PDict rejected_body)).

Definition refund_data : gmap string pyval :=
  <["InvoiceId" := PInt 6012345]> (<["RefundStatus" := PStr "Refunded"]> ∅).

Definition refund_event_data : gmap string pyval := <["Data" := PDict refund_data]> ∅.

Definition invoiced_tx : transaction :=
  set_provider_reference (Some "6012345") sample_tx.


(** Whether an exception is a [ValidationError], the one kind the
    reconciler catches around its status call (line 263). *)
Definition is_validation_error (e : exn) : bool :=
  match e with ValidationError _ => true | _ => false end.

(** The status request of the reconciler (lines 259-262) for a provider
    with API key [api_key]. *)
Definition status_call `{RT : PyRuntime} (p : provider) (api_key : string)
    (key : pyval) (key_type : string) : http_call :=
  {| rq_method := "POST";
     rq_url := _myfatoorah_get_api_url p +:+ "/v2/GetPaymentStatus";
     rq_authorization := "Bearer " +:+ api_key;
     rq_json := Some (PDict (<["Key" := PStr (py_str key)]>
                            (<["KeyType" := PStr key_type]> ∅))) |}.

(** The invoice-creation request (line 114). *)
Definition send_payment_call `{IP : InvoicePayload} (t : transaction) (api_key : string)
    : http_call :=
  {| rq_method := "POST";
     rq_url := _myfatoorah_get_api_url (provider_id t) +:+ "/v2/SendPayment";
     rq_authorization := "Bearer " +:+ api_key;
     rq_json := Some (send_payment_payload t) |}.

(** Status data whose [InvoiceStatus] is not a string. *)
Definition malformed_data : gmap string pyval := <["InvoiceStatus" := PInt 1]> ∅.

(** Status data that names the reference of [sample_tx]. *)
Definition referenced_data : gmap string pyval :=
  <["CustomerReference" := PStr "S00042"]> (<["InvoiceStatus" := PStr "Paid"]> ∅).

(** The data of a created invoice. *)
Definition created_data : gmap string pyval :=
  <["InvoiceId" := PInt 6012345]>
  (<["InvoiceURL" := PStr "https://demo.myfatoorah.com/pay/0101"]> ∅).

Definition other_rstate : rstate :=
  {| rs_self := other_provider_tx; rs_net := []; rs_applied := [] |}.

Definition invoice_id_payload (v : pyval) : gmap string pyval :=
  <["InvoiceId" := v]> ∅.

(** A response whose body is JSON but not an object. *)
Definition array_reply : http_reply := Response 200 (Some (PList [])).

(** Status data of a pending invoice whose last transaction failed. *)
Definition pending_failed_data : gmap string pyval :=
  <["InvoiceStatus" := PStr "Pending"]>
  (<["InvoiceTransactions" :=
       PList [PDict (<["TransactionStatus" := PStr "Failed"]>
                    (<["Error" := PStr "Declined"]> ∅))]]> ∅).

(** A refused invoice request whose body carries invoice data all the same. *)
Definition refused_invoice_reply : http_reply :=
  Response 400 (Some (PDict
    (<["IsSuccess" := PBool false]>
    (<["Message" := PStr "Invalid data"]>
    (<["Data" := PDict invoice_data]> ∅))))).

(** The status request the round trip of the locator sends for [provider]:
    none when the provider has no API key. *)
Definition provider_call (payment_id : pyval) (provider : provider) : option http_call :=
  match _myfatoorah_get_api_key provider with
  | Ok api_key => Some (lookup_call provider api_key payment_id)
  | Raise _ => None
  end.
(** * Properties *)

(** ** Strings and values *)

Lemma str_eqb_decide (a b : string) : String.eqb a b = bool_decide (a = b).
Proof.
  destruct (String.eqb_spec a b) as [->|Hne].
  - by rewrite bool_decide_eq_true_2.
  - by rewrite bool_decide_eq_false_2.
Qed.

Lemma str_in2_decide (s a b : string) : str_in2 s a b = bool_decide (s ∈ [a; b]).
Proof.
  unfold str_in2. rewrite !str_eqb_decide, <- bool_decide_or.
  apply bool_decide_ext. rewrite !elem_of_cons, elem_of_nil. tauto.
Qed.

Lemma str_or_decide (a b : string) : str_or a b = if bool_decide (a = "") then b else a.
Proof. unfold str_or. by rewrite str_eqb_decide. Qed.

Lemma hex_digit_ascii (n : N) : (N_of_ascii (hex_digit n) <? 128)%N = true.
Proof.
  unfold hex_digit.
  repeat match goal with
    | |- context [match ?x with _ => _ end] => destruct x
    end; reflexivity.
Qed.

Lemma hexlify_ascii (b : string) : is_ascii (hexlify b) = true.
Proof.
  induction b as [|c r IH]; simpl; [done|].
  by rewrite !hex_digit_ascii, IH.
Qed.

Lemma set_provider_reference_same (t : transaction) (v : option string) :
  provider_reference t = v -> set_provider_reference v t = t.
Proof. intros <-. by destruct t. Qed.

(** ** The gateway client *)

Section GatewayClientFacts.
Context `{RT : PyRuntime} `{GW : Gateway}.

(** A run of [_myfatoorah_make_request]: no request without an API key,
    otherwise exactly one request, whose reply decides the outcome. *)
Lemma make_request_run (p : provider) (endpoint : string) (payload : pyval)
    (method : string) (net : list http_call) :
  _myfatoorah_make_request p endpoint payload method net
  = match _myfatoorah_get_api_key p with
    | Raise e => (Raise e, net)
    | Ok api_key =>
        let call := make_call method (_myfatoorah_get_api_url p +:+ endpoint)
                              ("Bearer " +:+ api_key) payload in
        (handle_reply (http_send net call), (net ++ [call])%list)
    end.
Proof.
  unfold _myfatoorah_make_request, mbind, M_bind, lift, send.
  by destruct (_myfatoorah_get_api_key p).
Qed.


Lemma make_request_net (p : provider) (endpoint : string) (payload : pyval)
    (method : string) (net net' : list http_call) (o : outcome pyval) :
  _myfatoorah_make_request p endpoint payload method net = (o, net') ->
  net' = net \/ exists call, net' = (net ++ [call])%list.
Proof.
  rewrite make_request_run. destruct (_myfatoorah_get_api_key p).
  - intros [= _ <-]. eauto.
  - intros [= _ <-]. eauto.
Qed.





End GatewayClientFacts.

(** ** The reconciler, step by step *)

Section ReconcilerFacts.
Context `{RT : PyRuntime} `{GW : Gateway} `{LC : Lifecycle}.

Lemma run_plan_nil (s : rstate) : run_plan None [] s = s.
Proof. destruct s; unfold run_plan; simpl. by rewrite app_nil_r. Qed.

Lemma map_status_plan (inv eff : string) (latest : pyval) (s : rstate) :
  map_status inv eff latest s
  = match mapped_transition inv eff latest with
    | Ok tr => (Ok tt, run_plan None [tr] s)
    | Raise e => (Raise e, s)
    end.
Proof.
  unfold map_status, mapped_transition.
  repeat match goal with
    | |- context [if ?b then _ else _] => destruct b; try reflexivity
    end.
  all: unfold mbind, M_bind, outcome_bind, lift; simpl.
  all: repeat match goal with
    | |- context [match ?o with Ok _ => _ | Raise _ => _ end] =>
        destruct o; try reflexivity
    | |- context [if ?b then _ else _] => destruct b; try reflexivity
    end.
Qed.

Lemma process_status_data_plan (sd : pyval) (s : rstate) :
  process_status_data sd s = finish_plan (status_plan sd) s.
Proof.
  unfold process_status_data, finish_plan, status_plan, status_head, status_tail.
  unfold mbind, M_bind, outcome_bind, lift, get_state, modify, mret, M_ret, outcome_ret.
  destruct (py_get sd "InvoiceStatus" (PStr "")) as [raw|e]; simpl;
    [|by rewrite run_plan_nil].
  destruct (py_lower raw) as [inv|e]; simpl; [|by rewrite run_plan_nil].
  destruct (py_get sd "InvoiceId" PNone) as [iid|e]; simpl; [|by rewrite run_plan_nil].
  set (bf := if py_truthy iid then _ else _).
  assert (Hbf : (if py_truthy iid && negb (char_truthy (provider_reference (rs_self s)))
                 then with_self (set_provider_reference (Some (py_str iid))) s
                 else s) = run_plan bf [] s).
  { subst bf. destruct s as [t n a]. unfold run_plan, with_self; simpl.
    rewrite app_nil_r.
    destruct (py_truthy iid); simpl; [|done].
    by destruct (char_truthy (provider_reference t)). }
  replace ((if py_truthy iid && negb (char_truthy (provider_reference (rs_self s)))
      then fun s0 : rstate =>
             (Ok (), with_self (set_provider_reference (Some (py_str iid))) s0)
      else fun s0 : rstate => (Ok (), s0)) s)
    with (Ok tt, run_plan bf [] s)
    by (rewrite <- Hbf; by destruct (_ && _)).
  destruct (py_get sd "InvoiceTransactions" (PList [])) as [txs|e]; simpl; [|done].
  match goal with
  | |- context [match ?o with Ok _ => _ | Raise _ => _ end] =>
      destruct o as [[latest st]|e]
  end; simpl; [|done].
  rewrite map_status_plan.
  destruct (mapped_transition inv st latest); [|done].
  destruct s; unfold run_plan; simpl. by rewrite <- app_assoc.
Qed.

Lemma reconcile_other_provider (n : gmap string pyval) (s : rstate) :
  provider_code (rs_self s) <> "myfatoorah" ->
  _process_notification_data n s = (Ok tt, s).
Proof.
  intros Hne. unfold _process_notification_data, mbind, M_bind, get_state.
  rewrite str_eqb_decide, bool_decide_eq_false_2 by done. done.
Qed.

(** A run of the reconciler: the plan decided by the identifiers and by
    the status call, performed on [self]. *)
Lemma reconcile_run (n : gmap string pyval) (s : rstate) :
  provider_code (rs_self s) = "myfatoorah" ->
  _process_notification_data n s
  = match status_query_key (default PNone (n !! "paymentId"))
            (py_or (default PNone (n !! "InvoiceId"))
                   (char_value (provider_reference (rs_self s)))) with
    | None =>
        finish_plan
          (None, Ok (SetError
             "MyFatoorah: Missing payment identification in the notification.")) s
    | Some (key, key_type) =>
        let fetched :=
          _myfatoorah_make_request (provider_id (rs_self s)) "/v2/GetPaymentStatus"
            (status_query (py_str key) key_type) "POST" (rs_net s) in
        finish_plan (fetch_plan fetched.1) (with_net fetched.2 s)
    end.
Proof.
  intros Hcode. unfold _process_notification_data.
  unfold mbind at 1, M_bind at 1, get_state.
  rewrite Hcode. cbn [String.eqb Ascii.eqb Bool.eqb negb].
  destruct (status_query_key _ _) as [[key key_type]|]; [|reflexivity].
  unfold mbind, M_bind, try_except, request, zoom, status_query.
  cbn zeta.
  destruct (_myfatoorah_make_request _ _ _ _ _) as [[sd|e] net']; simpl.
  - apply process_status_data_plan.
  - destruct e; try reflexivity;
      unfold finish_plan; cbn [fetch_plan fst snd]; by rewrite run_plan_nil.
Qed.

(** ** The exceptions of the mapping *)

Lemma bind_raise {A B} (m : outcome A) (f : A -> outcome B) (e : exn) :
  m ≫= f = Raise e -> m = Raise e \/ exists a, m = Ok a /\ f a = Raise e.
Proof.
  destruct m as [a|e']; cbn.
  - intros H. right. by exists a.
  - intros [= <-]. by left.
Qed.

Lemma py_get_raise (v : pyval) (k : string) (d : pyval) (e : exn) :
  py_get v k d = Raise e -> is_validation_error e = false.
Proof. destruct v; cbn; by intros [= <-]. Qed.

Lemma py_lower_raise (v : pyval) (e : exn) :
  py_lower v = Raise e -> is_validation_error e = false.
Proof. destruct v; cbn; by intros [= <-]. Qed.

Lemma py_last_raise (v : pyval) (e : exn) :
  py_last v = Raise e -> is_validation_error e = false.
Proof.
  destruct v as [| | | |l|]; cbn; try by intros [= <-].
  destruct (last l); cbn; by intros [= <-].
Qed.

Lemma mapped_transition_raise (inv eff : string) (latest : pyval) (e : exn) :
  mapped_transition inv eff latest = Raise e -> is_validation_error e = false.
Proof.
  unfold mapped_transition.
  repeat (match goal with |- context [if ?b then _ else _] => destruct b end;
          try done).
  all: intros [H|(err & H1 & H2)]%bind_raise; try done.
  all: try (apply bind_raise in H as [H|(a & H & H')]; [by eapply py_get_raise|]).
  all: try (destruct (py_truthy a); [done|by eapply py_get_raise]).
  all: try by eapply py_get_raise.
Qed.

Lemma status_plan_raise (sd : pyval) (e : exn) :
  (status_plan sd).2 = Raise e -> is_validation_error e = false.
Proof.
  unfold status_plan.
  destruct (status_head sd) as [[inv inv_id]|e'] eqn:Hhead; cbn [snd].
  - unfold status_tail.
    intros [H|(transactions & _ & H)]%bind_raise; [by eapply py_get_raise|].
    apply bind_raise in H as [H|([latest eff] & _ & H)];
      [|by eapply mapped_transition_raise].
    destruct (py_truthy transactions); [|done].
    apply bind_raise in H as [H|(latest & _ & H)]; [by eapply py_last_raise|].
    apply bind_raise in H as [H|(raw & _ & H)]; [by eapply py_get_raise|].
    apply bind_raise in H as [H|(eff & _ & H)]; [by eapply py_lower_raise|done].
  - intros [= <-]. unfold status_head in Hhead.
    apply bind_raise in Hhead as [H|(raw & _ & H)]; [by eapply py_get_raise|].
    apply bind_raise in H as [H|(inv & _ & H)]; [by eapply py_lower_raise|].
    apply bind_raise in H as [H|(inv_id & _ & H)]; [by eapply py_get_raise|done].
Qed.

Lemma fetch_plan_raise (fetched : outcome pyval) (e : exn) :
  (fetch_plan fetched).2 = Raise e -> is_validation_error e = false.
Proof.
  destruct fetched as [sd|[]]; cbn [fetch_plan snd]; try by intros [= <-].
  apply status_plan_raise.
Qed.

(** ** The mapping against the specification's wording *)

Lemma mapped_claimed_entry (inv eff : string) (e : gmap string pyval) :
  mapped_transition inv eff (PDict e) = Ok (claimed_mapping inv eff (Some e)).
Proof.
  unfold mapped_transition, claimed_mapping, str_or.
  rewrite !bool_decide_or, <- !str_in2_decide, <- !str_eqb_decide.
  repeat match goal with
    | |- context [if ?b then _ else _] =>
        lazymatch b with
        | py_truthy _ => fail
        | _ => destruct b; try reflexivity
        end
    end.
  all: unfold claimed_error_text, py_or, py_get, mbind, outcome_bind, mret, outcome_ret.
  all: cbn [py_truthy].
  all: destruct (bool_decide_reflect (e = ∅)) as [->|_]; cbn [negb];
    [by rewrite !lookup_empty|].
  all: by destruct (py_truthy (default (PStr "") (e !! "Error"))).
Qed.

Lemma mapped_claimed_none (inv eff : string) :
  mapped_transition inv eff PNone = Ok (claimed_mapping inv eff None).
Proof.
  unfold mapped_transition, claimed_mapping, str_or.
  rewrite !bool_decide_or, <- !str_in2_decide, <- !str_eqb_decide.
  repeat match goal with
    | |- context [if ?b then _ else _] => destruct b; try reflexivity
    end.
Qed.

Lemma last_nonempty {A} (l : list A) (x : A) :
  last l = Some x -> match l with [] => false | _ => true end = true.
Proof. by destruct l. Qed.

(** On a response of the documented shape the mapping raises nothing and
    picks the transition the specification names. *)
Lemma status_plan_shape (sd : gmap string pyval) :
  status_shape_ok sd = true ->
  status_plan (PDict sd)
  = (if py_truthy (default PNone (sd !! "InvoiceId"))
     then Some (py_str (default PNone (sd !! "InvoiceId"))) else None,
     Ok (claimed_transition sd)).
Proof.
  unfold status_shape_ok. intros [Hinv Htx]%andb_prop.
  apply bool_decide_eq_true in Hinv. destruct Hinv as [raw Hraw].
  unfold status_plan, status_head, status_tail, claimed_transition,
    claimed_effective_status, claimed_latest, claimed_invoice_status.
  rewrite Hraw. unfold text_field in Hraw.
  cbn [py_get mbind outcome_bind mret outcome_ret].
  assert (Hlow : py_lower (default (PStr "") (sd !! "InvoiceStatus")) = Ok (str_lower raw)).
  { destruct (sd !! "InvoiceStatus") as [[]|]; simplify_eq; done. }
  rewrite Hlow. cbn [mbind outcome_bind mret outcome_ret]. f_equal.
  unfold transactions_of in *.
  destruct (sd !! "InvoiceTransactions") as [[| | | |l|]|]; try done;
    cbn [default from_option id py_truthy last];
    try (cbn [mbind outcome_bind mret outcome_ret]; apply mapped_claimed_none).
  destruct (last l) as [x|] eqn:Hlast.
  - rewrite (last_nonempty _ _ Hlast). cbn [py_last]. rewrite Hlast.
    destruct x as [| | | | |e]; try done.
    cbn [entry_shape_ok] in Htx. apply bool_decide_eq_true in Htx.
    destruct Htx as [st Hst]. rewrite Hst. unfold text_field in Hst.
    cbn [py_get mbind outcome_bind mret outcome_ret default from_option id].
    assert (Hts : py_lower (from_option id (PStr "") (e !! "TransactionStatus"))
                  = Ok (str_lower st)).
    { destruct (e !! "TransactionStatus") as [[]|]; simplify_eq; done. }
    rewrite Hts. cbn [mbind outcome_bind mret outcome_ret].
    apply mapped_claimed_entry.
  - apply last_None in Hlast as ->.
    cbn [mbind outcome_bind mret outcome_ret]. apply mapped_claimed_none.
Qed.

Lemma backfill_claimed (sd : gmap string pyval) (t : transaction) :
  backfill_with (if py_truthy (default PNone (sd !! "InvoiceId"))
                 then Some (py_str (default PNone (sd !! "InvoiceId"))) else None) t
  = claimed_backfill sd t.
Proof.
  unfold backfill_with, claimed_backfill.
  destruct (py_truthy _); [|done].
  by destruct (char_truthy _).
Qed.

End ReconcilerFacts.

(** ** The status reconciler *)

Section Reconciler.
Context `{RT : PyRuntime} `{GW : Gateway} `{LC : Lifecycle}.

(** C1, as the code has it.  On every successful GetPaymentStatus
    response of the documented shape, the reconciler derives the effective
    status through [lower()] (the last entry's [TransactionStatus] when
    [InvoiceTransactions] is non-empty, otherwise [InvoiceStatus]) and
    calls exactly one primitive, that of the first rule that matches, the
    rules being tried in this order: done for an invoice status [paid] or
    an effective status [succss]; pending for [pending] / [initiated] at
    either level; canceled for [expired] / [canceled] at either level, with
    the observed status in the message; error for [failed] at either level,
    with the latest entry's [Error] or [ErrorCode]; error naming the
    unrecognized status for anything else. *)
Theorem reconcile_applies_mapped_transition
    (n : gmap string pyval) (s : rstate) (key : pyval) (key_type : string)
    (sd : gmap string pyval) (net' : list http_call) :
  provider_code (rs_self s) = "myfatoorah" ->
  status_query_key (default PNone (n !! "paymentId"))
    (py_or (default PNone (n !! "InvoiceId"))
           (char_value (provider_reference (rs_self s)))) = Some (key, key_type) ->
  _myfatoorah_make_request (provider_id (rs_self s)) "/v2/GetPaymentStatus"
    (status_query (py_str key) key_type) "POST" (rs_net s) = (Ok (PDict sd), net') ->
  status_shape_ok sd = true ->
  _process_notification_data n s
  = (Ok tt,
     {| rs_self := run_transition (claimed_transition sd)
                     (claimed_backfill sd (rs_self s));
        rs_net := net';
        rs_applied := (rs_applied s ++ [claimed_transition sd])%list |}).
Proof.
  intros Hcode Hkey Hreq Hshape.
  rewrite reconcile_run, Hkey by done. cbn zeta. rewrite Hreq.
  cbn [fst snd fetch_plan]. rewrite (status_plan_shape sd Hshape).
  unfold finish_plan, plan_outcome, plan_transitions, run_plan.
  cbn [fst snd foldl with_net rs_self rs_net rs_applied].
  by rewrite backfill_claimed.
Qed.


(** C8.  The ['status'] entry of the notification plays no part: two runs
    from the same state on payloads that differ in it only are the same
    run, with the same requests, transition and final record; so it is for
    the payloads of the return and the error endpoint. *)
Theorem reconcile_ignores_redirect_status
    (n : gmap string pyval) (v1 v2 : pyval) (payment_id : string) (s : rstate) :
  _process_notification_data (<["status" := v1]> n) s
  = _process_notification_data (<["status" := v2]> n) s
  /\ _process_notification_data (redirect_notification_data payment_id "success") s
     = _process_notification_data (redirect_notification_data payment_id "error") s.
Proof.
  split.
  - unfold _process_notification_data. by rewrite !lookup_insert_ne by done.
  - unfold _process_notification_data, redirect_notification_data.
    rewrite !lookup_insert_eq.
    rewrite !(lookup_insert_ne _ "paymentId" "InvoiceId") by done.
    by rewrite !lookup_insert_ne by done.
Qed.

Lemma frame_foldl (trs : list transition) (t : transaction) :
  lifecycle_frame ->
  let t' := foldl (fun t tr => run_transition tr t) t trs in
  provider_reference t' = provider_reference t
  /\ provider_code t' = provider_code t
  /\ provider_id t' = provider_id t.
Proof.
  intros Hframe. revert t. induction trs as [|tr trs IH]; intros t; [done|].
  cbn [foldl]. destruct (IH (run_transition tr t)) as (-> & -> & ->).
  apply Hframe.
Qed.

Lemma backfill_with_fields (v : option string) (t : transaction) :
  provider_code (backfill_with v t) = provider_code t
  /\ provider_id (backfill_with v t) = provider_id t
  /\ (char_truthy (provider_reference t) = true ->
      backfill_with v t = t).
Proof.
  unfold backfill_with. destruct v as [r|]; [|done].
  by destruct (char_truthy (provider_reference t)).
Qed.

Lemma backfill_with_again (v : option string) (t t' : transaction) :
  provider_reference t' = provider_reference (backfill_with v t) ->
  backfill_with v t' = t'.
Proof.
  unfold backfill_with. destruct v as [r|]; [|done].
  destruct (char_truthy (provider_reference t)) eqn:Ht.
  - intros ->. by rewrite Ht.
  - cbn [set_provider_reference provider_reference]. intros Hr.
    rewrite Hr. destruct (char_truthy (Some r)); [done|].
    by apply set_provider_reference_same.
Qed.

(** C9.  With transition primitives that leave [provider_reference]
    alone, a run changes that field only by the backfill: a non-empty
    [provider_reference] is kept whatever the response's [InvoiceId], and
    a changed one was empty before and is now [str] of the [InvoiceId] of
    the status response. *)
Theorem reconcile_keeps_provider_reference (n : gmap string pyval) (s : rstate) :
  lifecycle_frame ->
  let s' := (_process_notification_data n s).2 in
  (char_truthy (provider_reference (rs_self s)) = true ->
   provider_reference (rs_self s') = provider_reference (rs_self s))
  /\ (provider_reference (rs_self s') <> provider_reference (rs_self s) ->
      char_truthy (provider_reference (rs_self s)) = false
      /\ exists key key_type sd net' invoice_id,
           _myfatoorah_make_request (provider_id (rs_self s)) "/v2/GetPaymentStatus"
             (status_query (py_str key) key_type) "POST" (rs_net s) = (Ok sd, net')
           /\ py_get sd "InvoiceId" PNone = Ok invoice_id
           /\ py_truthy invoice_id = true
           /\ provider_reference (rs_self s') = Some (py_str invoice_id)).
Proof.
  intros Hframe s'. subst s'.
  destruct (decide (provider_code (rs_self s) = "myfatoorah")) as [Hcode|Hcode];
    [|by rewrite reconcile_other_provider by done].
  rewrite reconcile_run by done.
  destruct (status_query_key _ _) as [[key key_type]|].
  2:{ unfold finish_plan, run_plan. cbn [fst snd rs_self backfill_with].
      destruct (frame_foldl (plan_transitions (None, Ok (SetError
        "MyFatoorah: Missing payment identification in the notification.")))
        (rs_self s) Hframe) as (-> & _). done. }
  cbn zeta.
  destruct (_myfatoorah_make_request _ _ _ _ _) as [fetched net'] eqn:Hreq.
  unfold finish_plan, run_plan. cbn [fst snd rs_self with_net].
  destruct (frame_foldl (plan_transitions (fetch_plan fetched))
    (backfill_with (fetch_plan fetched).1 (rs_self s)) Hframe) as (-> & _).
  split.
  - intros Hset. by rewrite (proj2 (proj2 (backfill_with_fields _ _)) Hset).
  - intros Hchanged.
    destruct (char_truthy (provider_reference (rs_self s))) eqn:Hset.
    { by rewrite (proj2 (proj2 (backfill_with_fields _ _)) Hset) in Hchanged. }
    split; [done|].
    destruct fetched as [sd|e]; [|by destruct e].
    cbn [fetch_plan] in *. unfold status_plan, status_head in *.
    unfold mbind, outcome_bind, mret, outcome_ret in *.
    destruct (py_get sd "InvoiceStatus" (PStr "")) as [raw|]; [|done].
    destruct (py_lower raw) as [inv|]; [|done].
    destruct (py_get sd "InvoiceId" PNone) as [invoice_id|] eqn:Hid; [|done].
    cbn [fst] in *. destruct (py_truthy invoice_id) eqn:Htruthy; [|done].
    exists key, key_type, sd, net', invoice_id.
    unfold backfill_with. by rewrite Hset.
Qed.

End Reconciler.

Section Idempotence.
Context `{RT : PyRuntime} `{GW : Gateway} `{LC : Lifecycle}.

Lemma make_request_same_reply (p : provider) (endpoint : string) (payload : pyval)
    (method : string) (net1 net2 : list http_call) :
  (forall call, http_send net1 call = http_send net2 call) ->
  (_myfatoorah_make_request p endpoint payload method net1).1
  = (_myfatoorah_make_request p endpoint payload method net2).1.
Proof.
  intros Hsame. rewrite !make_request_run.
  destruct (_myfatoorah_get_api_key p); [|done].
  cbn zeta. cbn [fst]. by rewrite Hsame.
Qed.

Lemma char_value_truthy (f : option string) : py_truthy (char_value f) = char_truthy f.
Proof. by destruct f. Qed.

(** The query key does not move when an empty [provider_reference] is
    filled in: it then came from the notification. *)
Lemma status_query_key_stable (payment_id invoice_id : pyval) (f f' : option string)
    (key : pyval) (key_type : string) :
  status_query_key payment_id (py_or invoice_id (char_value f)) = Some (key, key_type) ->
  (char_truthy f = true -> f' = f) ->
  status_query_key payment_id (py_or invoice_id (char_value f')) = Some (key, key_type).
Proof.
  unfold status_query_key, py_or. intros Hkey Hkeep.
  destruct (py_truthy payment_id); [done|].
  destruct (py_truthy invoice_id) eqn:Hinv.
  - by rewrite Hinv in *.
  - rewrite char_value_truthy in *.
    destruct (char_truthy f) eqn:Hf; [|done]. by rewrite Hkeep, Hf.
Qed.

Lemma plan_transitions_twice (plan : option string * outcome transition)
    (t : transaction) :
  lifecycle_idempotent ->
  let run := foldl (fun t tr => run_transition tr t) in
  run (run t (plan_transitions plan)) (plan_transitions plan)
  = run t (plan_transitions plan).
Proof.
  intros Hidem. unfold plan_transitions. destruct plan.2; [|done].
  cbn [foldl]. apply Hidem.
Qed.

(** Performing the same plan a second time changes nothing more. *)
Lemma run_plan_twice (plan : option string * outcome transition) (s s1 : rstate) :
  lifecycle_frame -> lifecycle_idempotent ->
  rs_self s1 = rs_self (run_plan plan.1 (plan_transitions plan) s) ->
  rs_self (run_plan plan.1 (plan_transitions plan) s1) = rs_self s1.
Proof.
  intros Hframe Hidem Hself. unfold run_plan in *. cbn [rs_self] in *.
  rewrite (backfill_with_again plan.1 (rs_self s) (rs_self s1)).
  - rewrite Hself. by apply plan_transitions_twice.
  - rewrite Hself. by destruct (frame_foldl (plan_transitions plan)
      (backfill_with plan.1 (rs_self s)) Hframe) as (-> & _).
Qed.

(** C7.  Reconciliation is idempotent under duplicate delivery: with
    transition primitives that are no-ops on repeated application and act
    on the lifecycle fields only, a second run on the same notification
    that meets the same gateway answer ends as the first did and leaves
    the transaction as the first run left it. *)
Theorem reconcile_idempotent (n : gmap string pyval) (s : rstate) :
  lifecycle_frame -> lifecycle_idempotent ->
  let r1 := _process_notification_data n s in
  (forall call, http_send (rs_net r1.2) call = http_send (rs_net s) call) ->
  let r2 := _process_notification_data n r1.2 in
  r2.1 = r1.1 /\ rs_self r2.2 = rs_self r1.2.
Proof.
  intros Hframe Hidem r1 Hsame r2. subst r2 r1.
  destruct (decide (provider_code (rs_self s) = "myfatoorah")) as [Hcode|Hcode].
  2:{ rewrite (reconcile_other_provider n s) by done. cbn [snd].
      by rewrite (reconcile_other_provider n s) by done. }
  revert Hsame. rewrite (reconcile_run n s) by done.
  destruct (status_query_key _ _) as [[key key_type]|] eqn:Hkey.
  - cbn zeta.
    destruct (_myfatoorah_make_request _ _ _ _ (rs_net s)) as [fetched net'] eqn:Hreq.
    cbn [fst snd]. unfold finish_plan. cbn [fst snd].
    set (plan := fetch_plan fetched).
    set (s1 := run_plan plan.1 (plan_transitions plan) (with_net net' s)).
    intros Hsame.
    assert (Hself : rs_self s1 = rs_self (run_plan plan.1 (plan_transitions plan) s))
      by done.
    destruct (frame_foldl (plan_transitions plan)
      (backfill_with plan.1 (rs_self s)) Hframe) as (Hpr & Hpc & Hpi).
    destruct (backfill_with_fields plan.1 (rs_self s)) as (Hbc & Hbi & Hbk).
    assert (Hcode1 : provider_code (rs_self s1) = "myfatoorah").
    { rewrite Hself. unfold run_plan. cbn [rs_self]. by rewrite Hpc, Hbc. }
    assert (Hid1 : provider_id (rs_self s1) = provider_id (rs_self s)).
    { rewrite Hself. unfold run_plan. cbn [rs_self]. by rewrite Hpi, Hbi. }
    rewrite (reconcile_run n s1) by done.
    rewrite (status_query_key_stable _ _ _ (provider_reference (rs_self s1)) _ _ Hkey).
    2:{ intros Hset. rewrite Hself. unfold run_plan. cbn [rs_self].
        by rewrite Hpr, (Hbk Hset). }
    cbn zeta. rewrite Hid1.
    assert (Hfetch : (_myfatoorah_make_request (provider_id (rs_self s))
                        "/v2/GetPaymentStatus" (status_query (py_str key) key_type)
                        "POST" (rs_net s1)).1 = fetched).
    { rewrite (make_request_same_reply _ _ _ _ (rs_net s1) (rs_net s)) by done.
      by rewrite Hreq. }
    rewrite Hfetch. fold plan. unfold finish_plan. cbn [fst snd]. split; [done|].
    exact (run_plan_twice plan s (with_net _ s1) Hframe Hidem Hself).
  - unfold finish_plan. cbn [fst snd].
    set (plan := (None, Ok (SetError
      "MyFatoorah: Missing payment identification in the notification."))
      : option string * outcome transition).
    set (s1 := run_plan plan.1 (plan_transitions plan) s).
    intros _.
    destruct (frame_foldl (plan_transitions plan)
      (backfill_with plan.1 (rs_self s)) Hframe) as (Hpr & Hpc & Hpi).
    assert (Hcode1 : provider_code (rs_self s1) = "myfatoorah") by by rewrite <- Hcode.
    rewrite (reconcile_run n s1) by done.
    assert (Hpr1 : provider_reference (rs_self s1) = provider_reference (rs_self s))
      by done.
    rewrite Hpr1, Hkey. fold plan. unfold finish_plan. cbn [fst snd]. split; [done|].
    by apply (run_plan_twice plan s).
Qed.

End Idempotence.

(** ** Invoice creation *)

Section InvoiceCreation.
Context `{RT : PyRuntime} `{GW : Gateway} `{LC : Lifecycle} `{IP : InvoicePayload}.

(** C10, as the code has it.  When the SendPayment call returns its data,
    an object, invoice creation raises its validation error exactly when
    that data has no invoice URL (absent, null or empty), and then
    [provider_reference] is as before; with an invoice URL,
    [provider_reference] becomes [str] of the [InvoiceId], and the empty
    string when the data carries none.  When the call raises, creation
    raises the same exception and the record is as before. *)
Theorem invoice_creation_requires_url (res : pyval) (s : rstate) :
  provider_code (rs_self s) = "myfatoorah" ->
  let sent :=
    _myfatoorah_make_request (provider_id (rs_self s)) "/v2/SendPayment"
      (send_payment_payload (rs_self s)) "POST" (rs_net s) in
  let r := _get_specific_processing_values res s in
  (forall d net', sent = (Ok (PDict d), net') ->
     let invoice_url := default PNone (d !! "InvoiceURL") in
     let invoice_id := default PNone (d !! "InvoiceId") in
     ((exists m, r.1 = Raise (ValidationError m)) <-> py_truthy invoice_url = false)
     /\ (py_truthy invoice_url = false ->
         r = (Raise (ValidationError
                       "MyFatoorah: No invoice URL received from the payment gateway."),
              with_net net' s)
         /\ provider_reference (rs_self r.2) = provider_reference (rs_self s))
     /\ (py_truthy invoice_url = true ->
         r.1 = Ok (PDict (<["api_url" := invoice_url]>
                         (<["reference" := PStr (reference (rs_self s))]> ∅)))
         /\ provider_reference (rs_self r.2)
            = Some (if py_truthy invoice_id then py_str invoice_id else "")
         /\ (py_truthy invoice_id = false -> provider_reference (rs_self r.2) = Some "")))
  /\ (forall e net', sent = (Raise e, net') -> r = (Raise e, with_net net' s)).
Proof.
  intros Hcode sent r. split.
  2:{ intros e net' Hreq. subst r sent. unfold _get_specific_processing_values.
      unfold mbind at 1, M_bind at 1, get_state. rewrite Hcode.
      cbn [String.eqb Ascii.eqb Bool.eqb negb].
      unfold mbind, M_bind, request, zoom, lift, modify, raise, mret, M_ret.
      by rewrite Hreq. }
  intros d net' Hreq invoice_url invoice_id. subst sent.
  assert (Hr : r = if negb (py_truthy invoice_url)
            then (Raise (ValidationError
                    "MyFatoorah: No invoice URL received from the payment gateway."),
                  with_net net' s)
            else (Ok (PDict (<["api_url" := invoice_url]>
                            (<["reference" := PStr (reference (rs_self s))]> ∅))),
                  with_self (set_provider_reference
                    (Some (if py_truthy invoice_id then py_str invoice_id else "")))
                    (with_net net' s))).
  { subst r. unfold _get_specific_processing_values.
    unfold mbind at 1, M_bind at 1, get_state. rewrite Hcode.
    cbn [String.eqb Ascii.eqb Bool.eqb negb].
    unfold mbind, M_bind, request, zoom, lift, modify, raise, mret, M_ret.
    rewrite Hreq. cbn [py_get mret outcome_ret].
    fold invoice_url invoice_id. by destruct (py_truthy invoice_url). }
  rewrite Hr. destruct (py_truthy invoice_url); cbn [negb fst snd].
  - split; [|split]; [|done|].
    + split; [by intros [m ?]|done].
    + intros _. split; [done|]. split; [done|]. by intros ->.
  - split; [|split]; [|done|done].
    split; [done|]. intros _. by eexists.
Qed.

End InvoiceCreation.

(** ** The signature verifier *)

Section Verifier.
Context `{RT : PyRuntime}.

(** What the verifier computes: it returns true exactly when the webhook
    secret is non-empty and the signature is the hexadecimal HMAC-SHA256
    digest of the raw body under that secret; with an empty or unset secret
    it returns false, whatever the signature; and no ASCII signature makes it
    raise. *)
Lemma verify_webhook_signature_exact (self : provider) (raw_body signature : string) :
  (_myfatoorah_verify_webhook_signature self raw_body signature = Ok true
   <-> char_truthy (myfatoorah_webhook_secret self) = true
       /\ signature
          = hmac_sha256_hexdigest (default "" (myfatoorah_webhook_secret self)) raw_body)
  /\ (char_truthy (myfatoorah_webhook_secret self) = false ->
      _myfatoorah_verify_webhook_signature self raw_body signature = Ok false)
  /\ (is_ascii signature = true ->
      exists b, _myfatoorah_verify_webhook_signature self raw_body signature = Ok b).
Proof.
  unfold _myfatoorah_verify_webhook_signature, compare_digest, hmac_sha256_hexdigest.
  destruct (char_truthy (myfatoorah_webhook_secret self)); cbn [negb].
  - rewrite hexlify_ascii. cbn [andb]. split; [|split; [done|]].
    + destruct (is_ascii signature) eqn:Ha; cbn [mbind outcome_bind mret outcome_ret throw].
      * split.
        -- intros [= H]. split; [done|]. symmetry. by apply String.eqb_eq.
        -- intros [_ ->]. by rewrite String.eqb_refl.
      * split; [done|]. intros [_ ->]. by rewrite hexlify_ascii in Ha.
    + intros ->. by eexists.
  - split; [|split]; [|done|by eexists]. split; [done|]. by intros [? _].
Qed.

(** With a secret configured, a signature with a non-ASCII character makes
    [hmac.compare_digest] raise. *)
Lemma verify_non_ascii_signature (self : provider) (raw_body signature : string) :
  char_truthy (myfatoorah_webhook_secret self) = true ->
  is_ascii signature = false ->
  _myfatoorah_verify_webhook_signature self raw_body signature = Raise TypeError.
Proof.
  intros Hs Ha. unfold _myfatoorah_verify_webhook_signature, compare_digest.
  rewrite Hs, Ha, andb_false_r. done.
Qed.

Lemma verify_true_ascii (self : provider) (raw_body signature : string) :
  _myfatoorah_verify_webhook_signature self raw_body signature = Ok true ->
  is_ascii signature = true.
Proof.
  intros H. apply verify_webhook_signature_exact in H as [_ ->].
  apply hexlify_ascii.
Qed.

End Verifier.

(** ** The transaction locator *)

Section LocatorFacts.
Context `{RT : PyRuntime} `{GW : Gateway} `{FW : Framework}.

(** One provider of the round trip: the store is not touched, and the
    requests sent are the one status request, if the provider has an API
    key. *)
Lemma lookup_with_provider_run (p : provider) (payment_id : pyval) (w : world) :
  exists r,
    lookup_with_provider p payment_id w
    = (r, w_with_net
            (match _myfatoorah_get_api_key p with
             | Ok api_key => (w_net w ++ [lookup_call p api_key payment_id])%list
             | Raise _ => w_net w
             end) w).
Proof.
  unfold lookup_with_provider, mbind, M_bind, zoom, lift, search_transactions,
    mret, M_ret.
  rewrite make_request_run.
  destruct (_myfatoorah_get_api_key p) as [api_key|e]; [|by eexists].
  cbn zeta. unfold make_call, lookup_call. cbn [str_upper str_map upper_ascii].
  change (String.eqb _ "POST") with true. cbn iota.
  destruct (handle_reply _) as [sd|e]; [|by eexists].
  destruct (py_get sd "CustomerReference" PNone) as [ref|e]; [|by eexists].
  destruct (py_get sd "InvoiceId" PNone) as [inv_id|e]; [|by eexists].
  repeat match goal with
    | |- context [if ?b then _ else _] => destruct b
    end; by eexists.
Qed.

Lemma w_with_net_same (w : world) : w_with_net (w_net w) w = w.
Proof. by destruct w. Qed.

(** The round trip raises nothing, leaves the store alone and only adds
    requests. *)
Lemma lookup_via_gateway_run (providers : list provider) (payment_id : pyval)
    (w : world) :
  exists found extra,
    lookup_via_gateway providers payment_id w
    = (Ok found, w_with_net (w_net w ++ extra)%list w)
    /\ (forall p rest api_key,
          providers = p :: rest -> _myfatoorah_get_api_key p = Ok api_key ->
          exists more, extra = lookup_call p api_key payment_id :: more).
Proof.
  revert w. induction providers as [|p rest IH]; intros w.
  - exists None, []. split; [|done].
    cbn [lookup_via_gateway mret M_ret]. by rewrite app_nil_r, w_with_net_same.
  - cbn [lookup_via_gateway]. unfold mbind, M_bind, try_except.
    destruct (lookup_with_provider_run p payment_id w) as [r ->].
    set (w1 := w_with_net _ w).
    assert (Hstep : exists first,
               w_net w1 = (w_net w ++ first)%list
               /\ (forall api_key, _myfatoorah_get_api_key p = Ok api_key ->
                     first = [lookup_call p api_key payment_id])).
    { subst w1. destruct (_myfatoorah_get_api_key p) as [k|e].
      - exists [lookup_call p k payment_id]. split; [done|]. by intros ? [= ->].
      - exists []. split; [by rewrite app_nil_r|done]. }
    destruct Hstep as (first & Hnet & Hfirst).
    assert (Hw1 : forall extra,
               w_with_net (w_net w1 ++ extra)%list w1
               = w_with_net (w_net w ++ (first ++ extra))%list w).
    { intros extra. rewrite Hnet, <- app_assoc. by destruct w. }
    assert (Hhead : forall extra p' rest' api_key,
               p :: rest = p' :: rest' -> _myfatoorah_get_api_key p' = Ok api_key ->
               exists more, (first ++ extra)%list
                            = lookup_call p' api_key payment_id :: more).
    { intros extra p' rest' api_key [= <- <-] Hk. rewrite (Hfirst _ Hk).
      by eexists. }
    assert (Hw1eq : w1 = w_with_net (w_net w ++ first)%list w).
    { rewrite <- Hnet. subst w1. by destruct w. }
    destruct r as [[tx|]|e].
    + exists (Some tx), first. split.
      * cbn [mret M_ret]. by rewrite <- Hw1eq.
      * intros p' rest' api_key Hp Hk.
        destruct (Hhead [] _ _ _ Hp Hk) as [more Hmore].
        rewrite app_nil_r in Hmore. by eexists.
    + destruct (IH w1) as (found & extra & -> & _).
      exists found, (first ++ extra)%list. split; [by rewrite Hw1|]. apply Hhead.
    + cbn [mret M_ret]. destruct (IH w1) as (found & extra & -> & _).
      exists found, (first ++ extra)%list. split; [by rewrite Hw1|]. apply Hhead.
Qed.

(** A run of the locator for this gateway, after the inherited lookup
    found nothing usable. *)
Lemma locate_run (n : gmap string pyval) (w w0 : world) (tx0 : list transaction) :
  super_get_tx_from_notification_data "myfatoorah" n w = (Ok tx0, w0) ->
  List.length tx0 <> 1%nat ->
  _get_tx_from_notification_data "myfatoorah" n w
  = if nonempty (found_by_reference n w0) then (Ok (found_by_reference n w0), w0)
    else if nonempty (found_by_invoice_id n w0) then (Ok (found_by_invoice_id n w0), w0)
    else
      let payment_id := default PNone (n !! "paymentId") in
      let missing :=
        Raise (ValidationError
          (not_found_message (default PNone (n !! "CustomerReference")) payment_id
             (default PNone (n !! "InvoiceId")))) in
      if py_truthy payment_id then
        match lookup_via_gateway (List.filter active_provider (w_providers w0))
                payment_id w0 with
        | (Ok (Some tx), w') => (Ok tx, w')
        | (Ok None, w') => (missing, w')
        | (Raise e, w') => (Raise e, w')
        end
      else (missing, w0).
Proof.
  intros Hsuper Hlen. unfold _get_tx_from_notification_data.
  unfold mbind at 1, M_bind at 1. rewrite Hsuper.
  cbn [String.eqb Ascii.eqb Bool.eqb negb orb].
  rewrite (proj2 (Nat.eqb_neq _ _) Hlen).
  unfold found_by_reference, found_by_invoice_id.
  unfold mbind, M_bind, search_transactions, search_providers, mret, M_ret, raise.
  cbn zeta.
  destruct (py_truthy (default PNone (n !! "CustomerReference")));
    cbn [nonempty];
    [destruct (nonempty (take 1 _)); [done|]|];
    (destruct (py_truthy (default PNone (n !! "InvoiceId")));
      cbn [nonempty];
      [destruct (nonempty (take 1 _)); [done|]|]);
    (destruct (py_truthy (default PNone (n !! "paymentId"))); [|done]);
    by destruct (lookup_via_gateway _ _ _) as [[[tx|]|e] w'].
Qed.

Lemma nonempty_true {A} (l : list A) : l <> [] -> nonempty l = true.
Proof. by destruct l. Qed.

Lemma take_1_first (l : list transaction) (t : transaction) :
  t ∈ l -> exists t', take 1 l = [t'] /\ t' ∈ l.
Proof. destruct l as [|t' l]; [by intros ?%elem_of_nil|]. exists t'. split; [done|]. by left. Qed.

(** C3, as the code has it.  The tiers are tried in order and the first
    hit wins: the reference tier, then the invoice-id tier, both without
    any request to the gateway, then the round trip by payment id; with
    none, the locator raises.  In particular a transaction of this
    gateway whose non-empty reference is the payload's
    [CustomerReference] is found by the first tier (it is the record
    returned when references are unique), and nothing is sent. *)
Theorem locate_tiers_in_order
    (n : gmap string pyval) (w w0 : world) (tx0 : list transaction) :
  super_get_tx_from_notification_data "myfatoorah" n w = (Ok tx0, w0) ->
  List.length tx0 <> 1%nat ->
  let located := _get_tx_from_notification_data "myfatoorah" n w in
  let payment_id := default PNone (n !! "paymentId") in
  (found_by_reference n w0 <> [] -> located = (Ok (found_by_reference n w0), w0))
  /\ (found_by_reference n w0 = [] -> found_by_invoice_id n w0 <> [] ->
      located = (Ok (found_by_invoice_id n w0), w0))
  /\ (found_by_reference n w0 = [] -> found_by_invoice_id n w0 = [] ->
      if py_truthy payment_id then
        exists found w',
          lookup_via_gateway (List.filter active_provider (w_providers w0))
            payment_id w0 = (Ok found, w')
          /\ located.2 = w'
          /\ match found with
             | Some tx => located.1 = Ok tx
             | None => exists m, located.1 = Raise (ValidationError m)
             end
      else exists m, located = (Raise (ValidationError m), w0))
  /\ (forall t R,
        t ∈ w_transactions w0 -> provider_code t = "myfatoorah" ->
        reference t = R -> R <> "" -> n !! "CustomerReference" = Some (PStr R) ->
        exists t',
          located = (Ok [t'], w0)
          /\ t' ∈ w_transactions w0 /\ reference t' = R
          /\ provider_code t' = "myfatoorah"
          /\ ((forall u, u ∈ w_transactions w0 -> reference u = R -> u = t) -> t' = t)).
Proof.
  intros Hsuper Hlen located payment_id. subst located.
  rewrite (locate_run n w w0 tx0 Hsuper Hlen). split; [|split; [|split]].
  - intros H. by rewrite (nonempty_true _ H).
  - intros -> H. cbn [nonempty]. by rewrite (nonempty_true _ H).
  - intros -> ->. cbn [nonempty]. cbn zeta. fold payment_id.
    destruct (py_truthy payment_id); [|by eexists].
    destruct (lookup_via_gateway_run (List.filter active_provider (w_providers w0))
                payment_id w0) as (found & extra & -> & _).
    exists found, (w_with_net (w_net w0 ++ extra)%list w0).
    split; [done|]. destruct found; [done|]. split; [done|]. by eexists.
  - intros t R Ht Hcode Href HR Hn.
    assert (Hin : t ∈ List.filter (by_reference (PStr R)) (w_transactions w0)).
    { apply list_elem_of_In, filter_In. split; [by apply list_elem_of_In|].
      unfold by_reference, leaf_eq. rewrite Href, Hcode.
      by rewrite bool_decide_eq_true_2. }
    destruct (take_1_first _ _ Hin) as (t' & Htake & Ht').
    apply list_elem_of_In, filter_In in Ht' as [Ht'in Ht'ok].
    unfold by_reference, leaf_eq in Ht'ok.
    apply andb_prop in Ht'ok as [Hr%bool_decide_eq_true Hc%String.eqb_eq].
    assert (Hfound : found_by_reference n w0 = [t']).
    { unfold found_by_reference. rewrite Hn. cbn [default from_option id py_truthy].
      rewrite (proj2 (String.eqb_neq _ _) HR). done. }
    rewrite Hfound. cbn [nonempty]. exists t'.
    split; [done|]. split; [by apply list_elem_of_In|].
    split; [congruence|]. split; [done|].
    intros Huniq. apply Huniq; [by apply list_elem_of_In|congruence].
Qed.

(** One provider of the round trip, against the specification's wording. *)
Lemma lookup_with_provider_claimed (p : provider) (payment_id : pyval) (w : world) :
  let status :=
    _myfatoorah_make_request p "/v2/GetPaymentStatus"
      (PDict (<["Key" := payment_id]> (<["KeyType" := PStr "PaymentId"]> ∅)))
      "POST" (w_net w) in
  let w' := w_with_net status.2 w in
  lookup_with_provider p payment_id w
  = (match status.1 with
     | Ok (PDict response) =>
         Ok (if nonempty (found_by_reference response w')
             then Some (found_by_reference response w')
             else if nonempty (found_by_invoice_id response w')
             then Some (found_by_invoice_id response w')
             else None)
     | Ok _ => Raise AttributeError
     | Raise e => Raise e
     end, w').
Proof.
  cbn zeta.
  unfold lookup_with_provider, mbind, M_bind, zoom, lift, search_transactions,
    mret, M_ret, found_by_reference, found_by_invoice_id.
  destruct (_myfatoorah_make_request _ _ _ _ _) as [[sd|e] net']; cbn [fst snd]; [|done].
  destruct sd as [| | | | |response]; try done.
  cbn [py_get mret outcome_ret w_transactions w_with_net].
  destruct (py_truthy (default PNone (response !! "CustomerReference")));
    cbn [nonempty w_transactions w_with_net].
  - destruct (nonempty (take 1 (List.filter (by_reference _) _))); [done|].
    destruct (py_truthy (default PNone (response !! "InvoiceId")));
      cbn [nonempty w_transactions w_with_net]; [|done].
    by destruct (nonempty (take 1 _)).
  - destruct (py_truthy (default PNone (response !! "InvoiceId")));
      cbn [nonempty w_transactions w_with_net]; [|done].
    by destruct (nonempty (take 1 _)).
Qed.

(** The loop over the providers is the third tier as the specification
    words it. *)
Lemma lookup_via_gateway_claimed (providers : list provider) (payment_id : pyval)
    (w : world) :
  lookup_via_gateway providers payment_id w
  = (Ok (claimed_round_trip providers payment_id w).1,
     (claimed_round_trip providers payment_id w).2).
Proof.
  revert w. induction providers as [|p rest IH]; intros w; [done|].
  cbn [lookup_via_gateway claimed_round_trip]. unfold mbind, M_bind, try_except.
  rewrite lookup_with_provider_claimed. cbn zeta.
  destruct (_myfatoorah_make_request _ _ _ _ _) as [[sd|e] net']; cbn [fst snd];
    cbv [mret M_ret]; [|apply IH].
  destruct sd as [| | | | |response]; try apply IH.
  destruct (nonempty (found_by_reference response _)); [done|].
  destruct (nonempty (found_by_invoice_id response _)); [done|].
  apply IH.
Qed.

(** C4, as the code has it.  The locator sends a request to the gateway
    only when the payload has a payment id and neither of the first two
    tiers found a record, whether or not the payload also carries a
    [CustomerReference] or an [InvoiceId]; and then it performs the round
    trip: each active provider in turn is asked for the payment (the first
    request goes to the first such provider with an API key) and tiers 1-2
    are retried against the identifiers of each response, the first hit
    being returned, the not-found error raised when there is none. *)
Theorem locate_round_trip_condition
    (n : gmap string pyval) (w w0 : world) (tx0 : list transaction) :
  super_get_tx_from_notification_data "myfatoorah" n w = (Ok tx0, w0) ->
  List.length tx0 <> 1%nat ->
  let located := _get_tx_from_notification_data "myfatoorah" n w in
  let payment_id := default PNone (n !! "paymentId") in
  let providers := List.filter active_provider (w_providers w0) in
  (w_net located.2 <> w_net w0 ->
   py_truthy payment_id = true
   /\ found_by_reference n w0 = [] /\ found_by_invoice_id n w0 = [])
  /\ (py_truthy payment_id = true ->
      found_by_reference n w0 = [] -> found_by_invoice_id n w0 = [] ->
      located
      = (match (claimed_round_trip providers payment_id w0).1 with
         | Some tx => Ok tx
         | None =>
             Raise (ValidationError
               (not_found_message (default PNone (n !! "CustomerReference"))
                  payment_id (default PNone (n !! "InvoiceId"))))
         end,
         (claimed_round_trip providers payment_id w0).2)
      /\ forall p rest api_key,
           providers = p :: rest ->
           _myfatoorah_get_api_key p = Ok api_key ->
           exists more,
             w_net located.2
             = (w_net w0 ++ lookup_call p api_key payment_id :: more)%list).
Proof.
  intros Hsuper Hlen located payment_id providers. subst located.
  rewrite (locate_run n w w0 tx0 Hsuper Hlen). cbn zeta.
  fold payment_id providers. split.
  - destruct (found_by_reference n w0); cbn [nonempty snd]; [|done].
    destruct (found_by_invoice_id n w0); cbn [nonempty snd]; [|done].
    by destruct (py_truthy payment_id).
  - intros -> -> ->. cbn [nonempty]. split.
    + rewrite lookup_via_gateway_claimed.
      by destruct (claimed_round_trip providers payment_id w0).1.
    + intros p rest api_key Hp Hk.
      destruct (lookup_via_gateway_run providers payment_id w0)
        as (found & extra & -> & Hfirst).
      destruct (Hfirst p rest api_key Hp Hk) as [more ->].
      exists more. by destruct found.
Qed.

End LocatorFacts.

(** ** The webhook endpoint *)

Section Webhook.
Context `{RT : PyRuntime} `{GW : Gateway} `{FW : Framework}.

Lemma first_verified_none (ps : list provider) (raw_body signature : string) (w : world) :
  (forall p, p ∈ ps ->
     _myfatoorah_verify_webhook_signature p raw_body signature = Ok false) ->
  first_verified ps raw_body signature w = (Ok None, w).
Proof.
  induction ps as [|p ps IH]; intros Hall; [done|].
  cbn [first_verified]. unfold mbind, M_bind, lift.
  rewrite (Hall p) by by left. apply IH. intros q Hq. apply Hall. by right.
Qed.

Lemma first_verified_some (ps : list provider) (raw_body signature : string) (w : world) :
  (exists p, p ∈ ps
     /\ _myfatoorah_verify_webhook_signature p raw_body signature = Ok true) ->
  exists p0, p0 ∈ ps
    /\ _myfatoorah_verify_webhook_signature p0 raw_body signature = Ok true
    /\ first_verified ps raw_body signature w = (Ok (Some p0), w).
Proof.
  intros (q & Hq & Hver). pose proof (verify_true_ascii _ _ _ Hver) as Hascii.
  induction ps as [|p ps IH]; [by apply elem_of_nil in Hq|].
  cbn [first_verified]. unfold mbind, M_bind, lift.
  destruct (proj2 (proj2 (verify_webhook_signature_exact p raw_body signature)) Hascii)
    as [[|] Hp]; rewrite Hp.
  - exists p. split; [by left|done].
  - apply elem_of_cons in Hq as [->|Hq]; [congruence|].
    destruct (IH Hq) as (p0 & Hp0 & Hv0 & ->). exists p0. split; [by right|done].
Qed.

Lemma verify_raise_cause (p : provider) (raw_body signature : string) (e : exn) :
  _myfatoorah_verify_webhook_signature p raw_body signature = Raise e ->
  e = TypeError /\ is_ascii signature = false.
Proof.
  unfold _myfatoorah_verify_webhook_signature, compare_digest, hmac_sha256_hexdigest.
  destruct (negb _); [done|]. rewrite hexlify_ascii. cbn [andb].
  destruct (is_ascii signature); [done|]. by intros [= <-].
Qed.

(** The verification loop touches nothing, and the provider it selects is
    a candidate whose verifier accepted the signature. *)
Lemma first_verified_run (ps : list provider) (raw_body signature : string) (w : world) :
  exists o,
    first_verified ps raw_body signature w = (o, w)
    /\ (forall p, o = Ok (Some p) ->
          p ∈ ps /\ _myfatoorah_verify_webhook_signature p raw_body signature = Ok true)
    /\ (forall e, o = Raise e -> e = TypeError /\ is_ascii signature = false).
Proof.
  induction ps as [|p ps (o & IH & Hsome & Hraise)].
  - exists (Ok None). by split.
  - cbn [first_verified]. unfold mbind, M_bind, lift.
    destruct (_myfatoorah_verify_webhook_signature p raw_body signature)
      as [[|]|e] eqn:Hp.
    + exists (Ok (Some p)). split; [done|]. split; [|done].
      intros ? [= <-]. split; [by left|done].
    + exists o. split; [done|]. split; [|done].
      intros q Hq. destruct (Hsome q Hq). split; [by right|done].
    + exists (Raise e). split; [done|]. split; [done|].
      intros ? [= <-]. by eapply verify_raise_cause.
Qed.

(** A run of the endpoint, by stages. *)
Lemma webhook_run (req : http_request) (w : world) :
  myfatoorah_webhook req w
  = if json_too_deep (body req) then (Raise RecursionError, w)
    else
      match json_loads (body req) with
      | None => (Ok (JsonResponse "error" "Invalid JSON body" 400), w)
      | Some event_data =>
          if pformat_too_deep event_data then (Raise RecursionError, w)
          else
            match event_data with
            | PDict ev =>
                let candidates := List.filter webhook_provider (w_providers w) in
                let event_type :=
                  py_or (default PNone (ev !! "Event"))
                        (default (PStr "Unknown") (ev !! "EventType")) in
                if nonempty candidates then
                  match first_verified candidates (body req) (request_signature req) w
                  with
                  | (Ok (Some p), w') =>
                      match _process_webhook_event event_type (PDict ev) p w' with
                      | (Ok _, w'') =>
                          (Ok (JsonResponse "ok" "Event processed successfully" 200), w'')
                      | (Raise _, w'') =>
                          (Ok (JsonResponse "ok" "Event received but processing failed"
                                 200), w'')
                      end
                  | (Ok None, w') =>
                      (Ok (JsonResponse "error" "Invalid signature" 401), w')
                  | (Raise e, w') => (Raise e, w')
                  end
                else (Ok (JsonResponse "error" "No active webhook provider" 400), w)
            | _ => (Raise AttributeError, w)
            end
      end.
Proof.
  unfold myfatoorah_webhook.
  destruct (json_too_deep (body req)); [done|].
  destruct (json_loads (body req)) as [event_data|]; [|done].
  destruct (pformat_too_deep event_data); [done|].
  destruct event_data as [| | | | |ev]; try done.
  cbn zeta. unfold mbind, M_bind, lift, search_providers, try_except.
  cbn [py_get]. cbv [mret M_ret outcome_ret].
  replace (if py_truthy (default PNone (ev !! "Event"))
           then Ok (default PNone (ev !! "Event"))
           else Ok (default (PStr "Unknown") (ev !! "EventType")))
    with (Ok (py_or (default PNone (ev !! "Event"))
                    (default (PStr "Unknown") (ev !! "EventType"))))
    by (unfold py_or; by destruct (py_truthy _)).
  destruct (nonempty _); cbn [negb]; [|done].
  destruct (first_verified _ _ _ w) as [[[p|]|e] w']; [|done|done].
  by destruct (_process_webhook_event _ _ p w') as [[[]|e] w''].
Qed.

(** C2, as the code has it.  For a webhook request whose body is decoded
    and formatted within the recursion limit: a body that is not JSON is
    answered HTTP 400; for a body that is a JSON object, an empty candidate
    set is answered HTTP 400; when some candidate's verifier accepts the
    signature the endpoint answers HTTP 200, also when dispatching the
    event raises (the message then says that processing failed), so no
    exception and no 5xx follows authentication; and when there are
    candidates and every candidate's verifier returns false it answers
    HTTP 401. *)
Theorem webhook_acknowledgement (req : http_request) (w : world) :
  json_too_deep (body req) = false ->
  let candidates := List.filter webhook_provider (w_providers w) in
  let signature := request_signature req in
  let r := myfatoorah_webhook req w in
  (json_loads (body req) = None ->
   r = (Ok (JsonResponse "error" "Invalid JSON body" 400), w))
  /\ (forall ev,
        json_loads (body req) = Some (PDict ev) ->
        pformat_too_deep (PDict ev) = false ->
        let event_type :=
          py_or (default PNone (ev !! "Event"))
                (default (PStr "Unknown") (ev !! "EventType")) in
        (candidates = [] ->
         r = (Ok (JsonResponse "error" "No active webhook provider" 400), w))
        /\ ((exists p, p ∈ candidates
               /\ _myfatoorah_verify_webhook_signature p (body req) signature = Ok true) ->
            exists p0, p0 ∈ candidates
              /\ _myfatoorah_verify_webhook_signature p0 (body req) signature = Ok true
              /\ let dispatched := _process_webhook_event event_type (PDict ev) p0 w in
                 r = (Ok (JsonResponse "ok"
                            (match dispatched.1 with
                             | Ok _ => "Event processed successfully"
                             | Raise _ => "Event received but processing failed"
                             end) 200),
                      dispatched.2))
        /\ (candidates <> [] ->
            (forall p, p ∈ candidates ->
               _myfatoorah_verify_webhook_signature p (body req) signature = Ok false) ->
            r = (Ok (JsonResponse "error" "Invalid signature" 401), w))).
Proof.
  intros Hdeep candidates signature r. subst r.
  rewrite webhook_run, Hdeep. split; [by intros ->|].
  intros ev -> -> event_type. cbn zeta. fold candidates signature event_type.
  split; [by intros ->|]. split.
  - intros Hsome.
    assert (Hcand : nonempty candidates = true).
    { destruct Hsome as (p & Hp & _). destruct candidates; [|done].
      by apply elem_of_nil in Hp. }
    rewrite Hcand.
    destruct (first_verified_some candidates (body req) signature w Hsome)
      as (p0 & Hp0 & Hv0 & ->).
    exists p0. split; [done|]. split; [done|]. cbn zeta.
    by destruct (_process_webhook_event event_type (PDict ev) p0 w) as [[[]|e] w''].
  - intros Hcand Hnone. rewrite (nonempty_true _ Hcand).
    by rewrite (first_verified_none candidates _ _ w Hnone).
Qed.

End Webhook.

(** ** The definitions at work on concrete inputs *)

Lemma guarded_lifecycle_frame : @lifecycle_frame guarded_lifecycle.
Proof.
  intros tr t. destruct tr; cbn [run_transition guarded_lifecycle _set_done
    _set_pending _set_canceled _set_error]; unfold update_state;
    by destruct (bool_decide _).
Qed.

Lemma guarded_lifecycle_idempotent : @lifecycle_idempotent guarded_lifecycle.
Proof.
  intros tr [i r pr c p st m].
  destruct tr, st; reflexivity.
Qed.

Lemma reconcile_applies_mapped_transition_witness :
  @_process_notification_data sample_runtime (constant_gateway (success_reply paid_data))
    guarded_lifecycle (<["paymentId" := PStr "0808"]> ∅) sample_rstate
  = (Ok tt,
     {| rs_self := @run_transition guarded_lifecycle
                     (@claimed_transition sample_runtime paid_data)
                     (@claimed_backfill sample_runtime paid_data sample_tx);
        rs_net := [sample_call "/v2/GetPaymentStatus" (status_query "0808" "PaymentId")];
        rs_applied := [@claimed_transition sample_runtime paid_data] |}).
Proof.
  apply (@reconcile_applies_mapped_transition sample_runtime
           (constant_gateway (success_reply paid_data)) guarded_lifecycle
           (<["paymentId" := PStr "0808"]> ∅) sample_rstate
           (PStr "0808") "PaymentId" paid_data
           [sample_call "/v2/GetPaymentStatus" (status_query "0808" "PaymentId")]);
    vm_compute; reflexivity.
Defined.


Lemma reconcile_idempotent_witness :
  let run := @_process_notification_data sample_runtime
               (constant_gateway (success_reply paid_data)) guarded_lifecycle
               (<["paymentId" := PStr "0808"]> ∅) in
  ((run (run sample_rstate).2).1 = (run sample_rstate).1
   /\ rs_self (run (run sample_rstate).2).2 = rs_self (run sample_rstate).2)
  /\ state (rs_self (run sample_rstate).2) = done.
Proof.
  split.
  - apply (@reconcile_idempotent sample_runtime
             (constant_gateway (success_reply paid_data)) guarded_lifecycle
             (<["paymentId" := PStr "0808"]> ∅) sample_rstate
             guarded_lifecycle_frame guarded_lifecycle_idempotent).
    intros call. reflexivity.
  - vm_compute; reflexivity.
Defined.

Lemma reconcile_keeps_provider_reference_witness :
  provider_reference
    (rs_self (@_process_notification_data sample_runtime
                (constant_gateway (success_reply paid_data)) guarded_lifecycle
                (<["paymentId" := PStr "0808"]> ∅) referenced_rstate).2)
  = Some "5998877".
Proof.
  apply (proj1 (@reconcile_keeps_provider_reference sample_runtime
                  (constant_gateway (success_reply paid_data)) guarded_lifecycle
                  (<["paymentId" := PStr "0808"]> ∅) referenced_rstate
                  guarded_lifecycle_frame)).
  vm_compute; reflexivity.
Defined.

Lemma invoice_creation_requires_url_witness :
  provider_reference
    (rs_self (@_get_specific_processing_values sample_runtime
                (constant_gateway (success_reply invoice_data)) sample_payload
                (PDict ∅) sample_rstate).2)
  = Some "".
Proof.
  destruct (proj1 (@invoice_creation_requires_url sample_runtime
                     (constant_gateway (success_reply invoice_data)) sample_payload
                     (PDict ∅) sample_rstate eq_refl)
              invoice_data [sample_call "/v2/SendPayment" (PDict ∅)]
              ltac:(vm_compute; reflexivity)) as (_ & _ & Hurl).
  destruct (Hurl eq_refl) as (_ & _ & Hempty). apply Hempty. reflexivity.
Defined.

Lemma locate_tiers_in_order_witness :
  @_get_tx_from_notification_data sample_runtime (constant_gateway Timeout)
    sample_framework "myfatoorah" (reference_payload "S00042")
    (sample_world [other_provider_tx; sample_tx] [sample_provider])
  = (Ok [sample_tx], sample_world [other_provider_tx; sample_tx] [sample_provider]).
Proof.
  apply (proj1 (@locate_tiers_in_order sample_runtime (constant_gateway Timeout)
                  sample_framework (reference_payload "S00042")
                  (sample_world [other_provider_tx; sample_tx] [sample_provider])
                  (sample_world [other_provider_tx; sample_tx] [sample_provider])
                  [] eq_refl ltac:(vm_compute; lia))).
  vm_compute. discriminate.
Defined.

Lemma locate_round_trip_condition_witness :
  exists more,
    w_net (@_get_tx_from_notification_data sample_runtime (constant_gateway Timeout)
             sample_framework "myfatoorah" webhook_like_payload
             (sample_world [sample_tx] [sample_provider])).2
    = ([] ++ @lookup_call sample_provider "token" (PStr "0808") :: more)%list.
Proof.
  apply (proj2 (proj2 (@locate_round_trip_condition sample_runtime
                         (constant_gateway Timeout) sample_framework
                         webhook_like_payload
                         (sample_world [sample_tx] [sample_provider])
                         (sample_world [sample_tx] [sample_provider])
                         [] eq_refl ltac:(vm_compute; lia))
                  eq_refl eq_refl eq_refl)
           sample_provider [] "token" eq_refl eq_refl).
Defined.

Lemma webhook_acknowledgement_witness :
  @myfatoorah_webhook sample_runtime (constant_gateway Timeout) sample_framework
    (signed_request "{}" "00") (sample_world [] [sample_provider])
  = (Ok (JsonResponse "error" "Invalid signature" 401), sample_world [] [sample_provider])
  /\ (@myfatoorah_webhook sample_runtime (constant_gateway Timeout) sample_framework
        (signed_request payment_event_body
           (@hmac_sha256_hexdigest sample_runtime "s3cret" payment_event_body))
        (sample_world [] [sample_provider])).1
     = Ok (JsonResponse "ok" "Event received but processing failed" 200).
Proof.
  split.
  - destruct (proj2 (@webhook_acknowledgement sample_runtime (constant_gateway Timeout)
                       sample_framework (signed_request "{}" "00")
                       (sample_world [] [sample_provider]) eq_refl)
                ∅ eq_refl eq_refl) as (_ & _ & Hnone).
    apply Hnone; [vm_compute; discriminate|].
    intros p Hp. vm_compute in Hp. apply list_elem_of_singleton in Hp as ->.
    vm_compute; reflexivity.
  - destruct (proj2 (@webhook_acknowledgement sample_runtime (constant_gateway Timeout)
                       sample_framework
                       (signed_request payment_event_body
                          (@hmac_sha256_hexdigest sample_runtime "s3cret"
                             payment_event_body))
                       (sample_world [] [sample_provider]) eq_refl)
                (<["Event" := PStr "PAYMENT_STATUS_CHANGED"]> ∅) eq_refl eq_refl)
      as (_ & Hsome & _).
    destruct Hsome as (p0 & Hp0 & _ & Hr).
    + exists sample_provider. split; [vm_compute; by left|vm_compute; reflexivity].
    + vm_compute in Hp0. apply list_elem_of_singleton in Hp0 as ->.
      rewrite Hr. vm_compute; reflexivity.
Defined.

(** ** Where the code departs from the specification's wording *)

(** C6.  The verifier is to return a boolean and never throw, and to
    return false on every single-bit mutation of a valid signature.  With a
    secret configured, the valid signature is accepted, and the one whose
    first character has its top bit flipped is no longer ASCII:
    [hmac.compare_digest] raises [TypeError] and so does the verifier. *)
Lemma verify_raises_on_non_ascii_signature :
  let valid := @hmac_sha256_hexdigest sample_runtime "s3cret" "{}" in
  @_myfatoorah_verify_webhook_signature sample_runtime sample_provider "{}" valid
  = Ok true
  /\ @_myfatoorah_verify_webhook_signature sample_runtime sample_provider "{}"
       (flip_top_bit valid)
     = Raise TypeError.
Proof. split; vm_compute; reflexivity. Qed.

(** C1 as stated fails: the invoice is pending and its last transaction
    failed, so the rule for [failed] at either level asks for the error
    transition; the code tries the rule for [pending] first and calls the
    pending primitive. *)
Lemma reconcile_pending_before_failed_counterexample :
  let run := @_process_notification_data sample_runtime
               (constant_gateway (success_reply pending_failed_data))
               guarded_lifecycle (<["paymentId" := PStr "0808"]> ∅) sample_rstate in
  @claimed_invoice_status sample_runtime pending_failed_data = "pending"
  /\ @claimed_effective_status sample_runtime pending_failed_data = "failed"
  /\ run.1 = Ok tt
  /\ rs_applied run.2 = [SetPending]
  /\ ~ claimed_rules "pending" "failed" SetPending.
Proof.
  split; [|split; [|split; [|split]]]; try (vm_compute; reflexivity).
  intros (_ & _ & _ & Hfailed). destruct Hfailed as [m Hm]; [by right|discriminate].
Qed.


(** C10 as stated fails: the gateway refuses the invoice request, and
    creation raises the client's validation error although the data of the
    response carries an invoice URL. *)
Lemma invoice_creation_client_error_counterexample :
  py_truthy (default PNone (invoice_data !! "InvoiceURL")) = true
  /\ @handle_reply sample_runtime refused_invoice_reply
     = Raise (ValidationError "MyFatoorah: Invalid data")
  /\ (@_get_specific_processing_values sample_runtime
        (constant_gateway refused_invoice_reply) sample_payload (PDict ∅)
        sample_rstate).1
     = Raise (ValidationError "MyFatoorah: Invalid data").
Proof. split; [|split]; vm_compute; reflexivity. Qed.

(** C2 as stated fails: no candidate provider accepts the signature, and
    the endpoint answers 400, not 401, because the body is not JSON; so it
    does when no provider has webhooks enabled; and with a signature the
    verifier raises on, the exception leaves the endpoint. *)
Lemma webhook_answers_400_counterexample :
  (forall p, p ∈ List.filter webhook_provider [sample_provider] ->
     @_myfatoorah_verify_webhook_signature sample_runtime p "not json" "00" = Ok false)
  /\ (@myfatoorah_webhook sample_runtime (constant_gateway Timeout) sample_framework
        (signed_request "not json" "00") (sample_world [] [sample_provider])).1
     = Ok (JsonResponse "error" "Invalid JSON body" 400)
  /\ List.filter webhook_provider [] = []
  /\ (@myfatoorah_webhook sample_runtime (constant_gateway Timeout) sample_framework
        (signed_request "{}" "00") (sample_world [] [])).1
     = Ok (JsonResponse "error" "No active webhook provider" 400)
  /\ (@myfatoorah_webhook sample_runtime (constant_gateway Timeout) sample_framework
        (signed_request "{}" non_ascii_signature)
        (sample_world [] [sample_provider])).1
     = Raise TypeError.
Proof.
  split; [|split; [|split; [|split]]]; try (vm_compute; reflexivity).
  intros p Hp. vm_compute in Hp. apply list_elem_of_singleton in Hp as ->.
  vm_compute; reflexivity.
Qed.

(** C3 as stated fails: the store holds a transaction whose reference is
    the payload's [CustomerReference], yet the locator raises instead of
    returning it, because the record belongs to another provider; so it
    does for an empty reference. *)
Lemma locate_skips_other_records_counterexample :
  (other_provider_tx ∈ [other_provider_tx]
   /\ reference_payload "S00043" !! "CustomerReference"
      = Some (PStr (reference other_provider_tx))
   /\ (@_get_tx_from_notification_data sample_runtime (constant_gateway Timeout)
         sample_framework "myfatoorah" (reference_payload "S00043")
         (sample_world [other_provider_tx] [sample_provider])).1
      = Raise (ValidationError
          ("MyFatoorah: No transaction found matching the notification data "
           +:+ "(reference: S00043, paymentId: None, invoiceId: None).")))
  /\ (unnamed_tx ∈ [unnamed_tx]
      /\ reference_payload "" !! "CustomerReference" = Some (PStr (reference unnamed_tx))
      /\ (@_get_tx_from_notification_data sample_runtime (constant_gateway Timeout)
            sample_framework "myfatoorah" (reference_payload "")
            (sample_world [unnamed_tx] [sample_provider])).1
         = Raise (ValidationError
             ("MyFatoorah: No transaction found matching the notification data "
              +:+ "(reference: , paymentId: None, invoiceId: None)."))).
Proof.
  split; (split; [by left|split]); vm_compute; reflexivity.
Qed.

(** C4 as stated fails: the payload carries a [CustomerReference] besides
    the payment id, no tier finds a record, and the locator does send a
    status request to the gateway. *)
Lemma locate_round_trip_with_reference_counterexample :
  py_truthy (default PNone (webhook_like_payload !! "CustomerReference")) = true
  /\ w_net (@_get_tx_from_notification_data sample_runtime (constant_gateway Timeout)
              sample_framework "myfatoorah" webhook_like_payload
              (sample_world [sample_tx] [sample_provider])).2
     = [@lookup_call sample_provider "token" (PStr "0808")].
Proof.
  split; vm_compute; reflexivity.
Qed.

(** * Further properties of the code *)

(** ** The gateway client *)

Section GatewayClientMore.
Context `{RT : PyRuntime} `{GW : Gateway}.

(** X1.  The base URL: the test URL in the test state, whatever the
    country; otherwise an entry of the live table, the Saudi one when the
    country is unset or not in the table. *)
Theorem api_url_selection (p : provider) :
  (p_state p = "test" -> _myfatoorah_get_api_url p = MYFATOORAH_TEST_URL)
  /\ (p_state p <> "test" ->
      exists country, MYFATOORAH_LIVE_URLS !! country = Some (_myfatoorah_get_api_url p))
  /\ (p_state p <> "test" ->
      forall country, myfatoorah_country_code p = Some country ->
        MYFATOORAH_LIVE_URLS !! country = None ->
        _myfatoorah_get_api_url p = "https://api-sa.myfatoorah.com")
  /\ (p_state p <> "test" -> char_truthy (myfatoorah_country_code p) = false ->
      _myfatoorah_get_api_url p = "https://api-sa.myfatoorah.com").
Proof.
  unfold _myfatoorah_get_api_url. split; [|split; [|split]].
  - by intros ->.
  - intros Hne. rewrite (proj2 (String.eqb_neq _ _) Hne).
    set (country := if char_truthy _ then _ else _).
    destruct (MYFATOORAH_LIVE_URLS !! country) as [url|] eqn:Hc.
    + by exists country.
    + by exists "SA".
  - intros Hne country Hcode Hnone. rewrite (proj2 (String.eqb_neq _ _) Hne), Hcode.
    cbn [default from_option id].
    destruct (char_truthy (Some country)); [by rewrite Hnone|done].
  - intros Hne Hunset. by rewrite (proj2 (String.eqb_neq _ _) Hne), Hunset.
Qed.

Lemma api_key_missing (p : provider) :
  char_truthy (active_key p) = false ->
  exists m, _myfatoorah_get_api_key p = Raise (ValidationError m).
Proof.
  unfold _myfatoorah_get_api_key, active_key. intros ->. by eexists.
Qed.

(** X2.  The API key is the key of the provider's own environment, and
    only that one: the call returns [k] exactly when that key is set to the
    non-empty [k], and raises a [ValidationError] otherwise, whatever the key
    of the other environment. *)
Theorem api_key_of_active_environment (p : provider) :
  (forall k, _myfatoorah_get_api_key p = Ok k <-> active_key p = Some k /\ k <> "")
  /\ (char_truthy (active_key p) = false ->
      exists m, _myfatoorah_get_api_key p = Raise (ValidationError m)).
Proof.
  unfold _myfatoorah_get_api_key, active_key.
  destruct (String.eqb (p_state p) "test");
    (match goal with |- context [char_truthy ?f] => destruct f as [key|] end;
     cbn [char_truthy negb default from_option id];
     [destruct (String.eqb_spec key "") as [->|Hne]; cbn [negb]|]);
    (split; [intros k; split; [intros [= <-] || intros [=]|intros [[= <-] ?]]|]);
    try done; try (intros _; by eexists).
Qed.

(** X3.  A call of the client sends nothing without an API key and
    otherwise exactly one request, to the endpoint under the provider's base
    URL, with the key as bearer token; the body goes with a POST only. *)
Theorem make_request_sends_one_request
    (p : provider) (endpoint : string) (payload : pyval) (method : string)
    (net : list http_call) :
  let r := _myfatoorah_make_request p endpoint payload method net in
  (char_truthy (active_key p) = false ->
   r.2 = net /\ exists m, r.1 = Raise (ValidationError m))
  /\ (forall k, _myfatoorah_get_api_key p = Ok k ->
      exists call,
        r.2 = (net ++ [call])%list
        /\ r.1 = handle_reply (http_send net call)
        /\ rq_url call = _myfatoorah_get_api_url p +:+ endpoint
        /\ rq_authorization call = "Bearer " +:+ k
        /\ (if String.eqb (str_upper method) "POST"
            then rq_method call = "POST" /\ rq_json call = Some payload
            else rq_method call = "GET" /\ rq_json call = None)).
Proof.
  intros r. subst r. rewrite make_request_run. split.
  - intros Hkey. destruct (api_key_missing p Hkey) as [m ->]. eauto.
  - intros k ->. cbn zeta. eexists. split; [reflexivity|]. split; [reflexivity|].
    unfold make_call. by destruct (String.eqb (str_upper method) "POST").
Qed.

Lemma bind_throw_not_ok {A B} (o : outcome A) (f : A -> exn) (b : B) :
  (a ← o; throw (f a)) <> Ok b.
Proof. by destruct o. Qed.

(** X4.  The client returns data only for an HTTP 200 response whose body
    is an object, formatted for the log within the recursion limit, with a
    truthy [IsSuccess]; and the data is the [Data] entry of the body, the
    empty dictionary when there is none; every other reply raises. *)
Theorem handle_reply_success (reply : http_reply) (data : pyval) :
  handle_reply reply = Ok data
  <-> exists rd,
        reply = Response 200 (Some (PDict rd))
        /\ pformat_too_deep (PDict rd) = false
        /\ py_truthy (default PNone (rd !! "IsSuccess")) = true
        /\ data = default (PDict ∅) (rd !! "Data").
Proof.
  split.
  - destruct reply as [| | |status_code [response_data|]|status_code]; try done.
    cbn [handle_reply].
    destruct (pformat_too_deep response_data) eqn:Hfmt; [done|].
    cbn [mbind outcome_bind mret outcome_ret].
    destruct (Z.eqb_spec status_code 200) as [->|Hne]; cbn [negb].
    + destruct response_data as [| | | | |rd]; try done.
      cbn [py_get mbind outcome_bind mret outcome_ret].
      destruct (py_truthy (default PNone (rd !! "IsSuccess"))) eqn:Hs; cbn [negb].
      * intros [= <-]. by exists rd.
      * intros H. exfalso. revert H.
        match goal with
        | |- (?o ≫= _) = _ -> _ => destruct o
        end; done.
    + cbn [mbind outcome_bind mret outcome_ret].
      destruct (py_get response_data "Message" (PStr "Unknown error")); [|done].
      cbn [mbind outcome_bind].
      destruct (py_get response_data "ValidationErrors" PNone); [|done].
      cbn [mbind outcome_bind].
      match goal with
      | |- (?o ≫= _) = _ -> _ => destruct o
      end; done.
  - intros (rd & -> & Hfmt & Hs & ->). cbn [handle_reply Z.eqb Pos.eqb negb].
    rewrite Hfmt. cbn [py_get mbind outcome_bind mret outcome_ret]. by rewrite Hs.
Qed.

Lemma py_join_concat (sep : string) (l : list string) :
  py_join sep (PStr <$> l) = Ok (String.concat sep l).
Proof.
  induction l as [|x l IH]; [done|].
  cbn [fmap list_fmap py_join]. destruct l as [|y l]; [done|].
  cbn [fmap list_fmap] in *. rewrite IH. done.
Qed.

Lemma validation_errors_texts (fields : list (string * string)) :
  mapM (fun err => py_get err "Error" (PStr ""))
       (List.filter is_dict (validation_error <$> fields))
  = Ok (PStr <$> (snd <$> fields)).
Proof.
  induction fields as [|f fields IH]; [done|].
  cbn [fmap list_fmap List.filter validation_error is_dict mapM] in *.
  rewrite IH. unfold validation_error at 1.
  cbn [py_get mbind outcome_bind mret outcome_ret].
  by rewrite lookup_insert_ne, lookup_insert_eq by done.
Qed.

(** X5.  A rejected request (HTTP status other than 200, a body formatted
    for the log within the recursion limit) raises one [ValidationError]
    whose message joins the top-level message and the field-level errors:
    [MyFatoorah: <Message> — <Error>; <Error>; ...]. *)
Theorem rejected_request_message
    (status_code : Z) (rd : gmap string pyval) (message : string)
    (fields : list (string * string)) :
  status_code <> 200 ->
  pformat_too_deep (PDict rd) = false ->
  rd !! "Message" = Some (PStr message) ->
  rd !! "ValidationErrors" = Some (PList (validation_error <$> fields)) ->
  fields <> [] ->
  handle_reply (Response status_code (Some (PDict rd)))
  = Raise (ValidationError
      ("MyFatoorah: " +:+ message +:+ " — " +:+ String.concat "; " (snd <$> fields))).
Proof.
  intros Hstatus Hfmt Hmsg Herrs Hne. cbn [handle_reply].
  rewrite Hfmt, (proj2 (Z.eqb_neq _ _) Hstatus). cbn [negb].
  cbn [py_get mbind outcome_bind mret outcome_ret].
  rewrite Hmsg, Herrs. cbn [default from_option id py_truthy py_iter].
  destruct fields as [|f fields]; [done|].
  cbn [mbind outcome_bind mret outcome_ret].
  rewrite (validation_errors_texts (f :: fields)).
  cbn [mbind outcome_bind mret outcome_ret].
  rewrite (py_join_concat "; " (snd <$> f :: fields)).
  done.
Qed.

End GatewayClientMore.

(** ** The signature verifier *)

Section VerifierMore.
Context `{RT : PyRuntime}.

(** X6.  The three outcomes of the verifier: false exactly when no secret
    is configured or the (ASCII) signature is not the digest; an exception
    exactly when a secret is configured and the signature has a non-ASCII
    character, and then it is a [TypeError]. *)
Theorem verify_outcomes (self : provider) (raw_body signature : string) :
  let expected :=
    hmac_sha256_hexdigest (default "" (myfatoorah_webhook_secret self)) raw_body in
  (_myfatoorah_verify_webhook_signature self raw_body signature = Ok false
   <-> char_truthy (myfatoorah_webhook_secret self) = false
       \/ (is_ascii signature = true /\ signature <> expected))
  /\ (forall e,
        _myfatoorah_verify_webhook_signature self raw_body signature = Raise e
        <-> char_truthy (myfatoorah_webhook_secret self) = true
            /\ is_ascii signature = false /\ e = TypeError).
Proof.
  intros expected. subst expected.
  unfold _myfatoorah_verify_webhook_signature, compare_digest, hmac_sha256_hexdigest.
  destruct (char_truthy (myfatoorah_webhook_secret self)); cbn [negb].
  - rewrite hexlify_ascii. cbn [andb].
    destruct (is_ascii signature); cbn [mbind outcome_bind mret outcome_ret throw].
    + split.
      * split.
        -- intros [= H]. right. split; [done|]. intros ->.
           by rewrite String.eqb_refl in H.
        -- intros [|[_ Hne]]; [done|]. f_equal. apply String.eqb_neq. congruence.
      * intros e. split; [done|]. by intros (_ & ? & _).
    + split.
      * split; [done|]. by intros [|[? _]].
      * intros e. split; [by intros [= <-]|]. by intros (_ & _ & ->).
  - cbn [mret outcome_ret]. split.
    + split; [by left|done].
    + intros e. split; [done|]. by intros (? & _).
Qed.

Lemma upper_ascii_range (c : ascii) :
  (N_of_ascii (upper_ascii c) <? 128)%N = (N_of_ascii c <? 128)%N.
Proof. destruct c as [[] [] [] [] [] [] [] []]; reflexivity. Qed.

Lemma str_upper_ascii (s : string) : is_ascii (str_upper s) = is_ascii s.
Proof.
  unfold str_upper. induction s as [|c s IH]; [done|].
  cbn [str_map is_ascii]. by rewrite upper_ascii_range, IH.
Qed.

(** X7.  The comparison is case-sensitive: the upper-case rendering of the
    expected digest is rejected (unless the digest has no letter). *)
Theorem verify_rejects_upper_case (self : provider) (raw_body : string) :
  char_truthy (myfatoorah_webhook_secret self) = true ->
  let expected :=
    hmac_sha256_hexdigest (default "" (myfatoorah_webhook_secret self)) raw_body in
  str_upper expected <> expected ->
  _myfatoorah_verify_webhook_signature self raw_body (str_upper expected) = Ok false.
Proof.
  intros Hsecret expected Hne. subst expected.
  unfold _myfatoorah_verify_webhook_signature, compare_digest, hmac_sha256_hexdigest in *.
  rewrite Hsecret, str_upper_ascii, hexlify_ascii. cbn [negb andb].
  cbn [mbind outcome_bind mret outcome_ret]. f_equal.
  apply String.eqb_neq. congruence.
Qed.

End VerifierMore.

(** ** The webhook endpoint and the redirect endpoints *)

Section ControllersMore.
Context `{RT : PyRuntime} `{GW : Gateway} `{FW : Framework}.

(** X8.  Nothing happens before authentication: if the endpoint changes
    the world (store, notes, requests to the gateway) or answers HTTP 200,
    then the body is JSON and a candidate provider's verifier accepted the
    signature of the raw body. *)
Theorem webhook_effects_need_signature (req : http_request) (w : world) :
  let r := myfatoorah_webhook req w in
  r.2 <> w \/ (exists status message, r.1 = Ok (JsonResponse status message 200)) ->
  exists event_data p,
    json_loads (body req) = Some event_data
    /\ p ∈ List.filter webhook_provider (w_providers w)
    /\ _myfatoorah_verify_webhook_signature p (body req) (request_signature req)
       = Ok true.
Proof.
  intros r. subst r. rewrite webhook_run.
  destruct (json_too_deep (body req)); [by intros [?|(? & ? & ?)]|].
  destruct (json_loads (body req)) as [event_data|];
    [|by intros [?|(? & ? & ?)]].
  destruct (pformat_too_deep event_data); [by intros [?|(? & ? & ?)]|].
  destruct event_data as [| | | | |ev]; try (by intros [?|(? & ? & ?)]).
  cbn zeta.
  destruct (nonempty (List.filter webhook_provider (w_providers w)));
    [|by intros [?|(? & ? & ?)]].
  destruct (first_verified_run (List.filter webhook_provider (w_providers w))
              (body req) (request_signature req) w) as (o & -> & Hsome & _).
  destruct o as [[p|]|e]; try (by intros [?|(? & ? & ?)]).
  intros _. destruct (Hsome p eq_refl). by exists (PDict ev), p.
Qed.

(** X9.  An exception leaves the endpoint in three cases only, all before
    authentication and with the world untouched: [RecursionError] for a
    body that nests too deeply to be decoded or to be formatted for the log,
    [AttributeError] for a JSON body that is not an object, [TypeError] for
    a signature with a non-ASCII character. *)
Theorem webhook_failure_modes (req : http_request) (w : world) (e : exn) :
  (myfatoorah_webhook req w).1 = Raise e ->
  (myfatoorah_webhook req w).2 = w
  /\ ((e = RecursionError
       /\ (json_too_deep (body req) = true
           \/ exists v, json_loads (body req) = Some v /\ pformat_too_deep v = true))
      \/ (e = AttributeError
          /\ exists v, json_loads (body req) = Some v /\ is_dict v = false)
      \/ (e = TypeError /\ is_ascii (request_signature req) = false)).
Proof.
  rewrite webhook_run.
  destruct (json_too_deep (body req)) eqn:Hdeep.
  { intros [= <-]. split; [done|]. left. split; [done|]. by left. }
  destruct (json_loads (body req)) as [event_data|]; [|done].
  destruct (pformat_too_deep event_data) eqn:Hfmt.
  { intros [= <-]. split; [done|]. left. split; [done|]. right. by eexists. }
  destruct event_data as [| | | | |ev];
    try (intros [= <-]; split; [done|]; right; left; split; [done|]; by eexists).
  cbn zeta.
  destruct (nonempty (List.filter webhook_provider (w_providers w))); [|done].
  destruct (first_verified_run (List.filter webhook_provider (w_providers w))
              (body req) (request_signature req) w) as (o & -> & _ & Hraise).
  destruct o as [[p|]|e']; [|done|].
  - by destruct (_process_webhook_event _ _ p w) as [[[]|?] ?].
  - intros [= <-]. split; [done|]. right; right. by apply Hraise.
Qed.

(** X10.  The second header lookup of the endpoint never finds more than
    the first: header names compare without case, so the signature is the
    value of the [MyFatoorah-Signature] header. *)
Theorem request_signature_single_lookup (req : http_request) :
  request_signature req = headers_get (headers req) "MyFatoorah-Signature".
Proof.
  unfold request_signature.
  destruct (String.eqb_spec (headers_get (headers req) "MyFatoorah-Signature") "")
    as [Hempty|]; [|done].
  rewrite Hempty. unfold headers_get in *.
  change (ascii_lower "myfatoorah-signature") with (ascii_lower "MyFatoorah-Signature").
  exact Hempty.
Qed.

(** X11.  An event that is neither a payment-status nor a refund-status
    change (a balance transfer, an unknown type) is accepted and changes
    nothing. *)
Theorem other_events_change_nothing
    (event_type : pyval) (ev d : gmap string pyval) (p : provider) (w : world) :
  default (PDict ev) (ev !! "Data") = PDict d ->
  py_in2 event_type "PAYMENT_STATUS_CHANGED" "TransactionStatusChanged" = false ->
  py_in2 event_type "REFUND_STATUS_CHANGED" "RefundStatusChanged" = false ->
  _process_webhook_event event_type (PDict ev) p w = (Ok tt, w).
Proof.
  intros Hdata Hpay Hrefund. unfold _process_webhook_event.
  unfold mbind, M_bind, lift. cbn [py_get mret outcome_ret].
  rewrite Hdata. cbn [py_get mret outcome_ret]. by rewrite Hpay, Hrefund.
Qed.

(** X12.  A refund-status event whose [RefundStatus] is text, or absent,
    looks the transaction up by [provider_reference] only, among this
    gateway's transactions: when there is none (or the event has no invoice
    id) the event is accepted and nothing changes; otherwise one note, with
    the refund status as [lower()] gives it and the invoice id, is posted on
    the first match. *)
Theorem refund_event_posts_note
    (event_type : string) (ev d : gmap string pyval) (raw_status : string)
    (p : provider) (w : world) :
  event_type ∈ ["REFUND_STATUS_CHANGED"; "RefundStatusChanged"] ->
  default (PDict ev) (ev !! "Data") = PDict d ->
  text_field d "RefundStatus" = Some raw_status ->
  let invoice_id := default PNone (d !! "InvoiceId") in
  let found :=
    if py_truthy invoice_id
    then take 1 (List.filter (by_provider_reference (PStr (py_str invoice_id)))
                             (w_transactions w))
    else [] in
  _process_webhook_event (PStr event_type) (PDict ev) p w
  = if nonempty found then
      message_post found
        ("MyFatoorah Webhook: Refund status changed to '" +:+ str_lower raw_status
         +:+ "' for invoice " +:+ py_str invoice_id +:+ ".") w
    else (Ok tt, w).
Proof.
  intros Hev Hdata Hstatus invoice_id found. subst found invoice_id.
  unfold _process_webhook_event, mbind, M_bind, lift, search_transactions.
  cbn [py_get mret outcome_ret]. rewrite Hdata. cbn [py_get mret outcome_ret].
  assert (Hpay : py_in2 (PStr event_type) "PAYMENT_STATUS_CHANGED"
                   "TransactionStatusChanged" = false).
  { apply elem_of_cons in Hev as [->|Hev]; [done|].
    by apply list_elem_of_singleton in Hev as ->. }
  assert (Hrefund : py_in2 (PStr event_type) "REFUND_STATUS_CHANGED"
                      "RefundStatusChanged" = true).
  { apply elem_of_cons in Hev as [->|Hev]; [done|].
    by apply list_elem_of_singleton in Hev as ->. }
  rewrite Hpay, Hrefund.
  assert (Hlow : py_lower (default (PStr "") (d !! "RefundStatus")) = Ok (str_lower raw_status)).
  { unfold text_field in Hstatus. destruct (d !! "RefundStatus") as [[]|]; by simplify_eq. }
  rewrite Hlow. cbv [mret M_ret].
  destruct (py_truthy (default PNone (d !! "InvoiceId"))); [|done].
  by destruct (nonempty _).
Qed.

(** X13.  A redirect endpoint always answers with the redirect to the
    status page, whatever the locator, the framework or the gateway do; and
    without a payment id in the query it does nothing else. *)
Theorem redirect_always_answers
    (status : string) (kwargs : gmap string string) (w : world) :
  (redirect_endpoint status kwargs w).1 = Ok (Redirect "/payment/status")
  /\ (kwargs !! "paymentId" = None \/ kwargs !! "paymentId" = Some "" ->
      (redirect_endpoint status kwargs w).2 = w).
Proof.
  unfold redirect_endpoint.
  destruct (kwargs !! "paymentId") as [payment_id|]; [|by split].
  destruct (String.eqb_spec payment_id "") as [->|Hne].
  - by split.
  - unfold mbind, M_bind, try_except. split.
    + destruct (_get_tx_from_notification_data _ _ w) as [[tx|e] w1]; [|done].
      by destruct (_handle_notification_data tx _ _ w1) as [[[]|e] w2].
    + intros [|[= ->]]; done.
Qed.

End ControllersMore.

(** ** The transaction locator *)

Section LocatorMore.
Context `{RT : PyRuntime} `{GW : Gateway} `{FW : Framework}.

(** What [search(domain, limit=1)] returns when it finds something. *)
Lemma search_result (domain : transaction -> bool) (l tx : list transaction) :
  tx = take 1 (List.filter domain l) -> nonempty tx = true ->
  exists t, tx = [t] /\ t ∈ l /\ domain t = true.
Proof.
  intros -> Hne. destruct (List.filter domain l) as [|t rest] eqn:Hf; [done|].
  exists t. split; [by destruct rest|].
  assert (Hin : In t (List.filter domain l)) by (rewrite Hf; by left).
  apply filter_In in Hin as [Hin Hd]. split; [by apply list_elem_of_In|done].
Qed.

Lemma by_reference_code (v : pyval) (t : transaction) :
  by_reference v t = true -> provider_code t = "myfatoorah".
Proof. unfold by_reference. by intros [_ ?%String.eqb_eq]%andb_prop. Qed.

Lemma by_provider_reference_code (v : pyval) (t : transaction) :
  by_provider_reference v t = true -> provider_code t = "myfatoorah".
Proof. unfold by_provider_reference. by intros [_ ?%String.eqb_eq]%andb_prop. Qed.

Lemma lookup_with_provider_found
    (p : provider) (payment_id : pyval) (w w' : world) (tx : list transaction) :
  lookup_with_provider p payment_id w = (Ok (Some tx), w') ->
  exists t, tx = [t] /\ t ∈ w_transactions w /\ provider_code t = "myfatoorah".
Proof.
  unfold lookup_with_provider, mbind, M_bind, zoom, lift, search_transactions,
    mret, M_ret.
  destruct (_myfatoorah_make_request _ _ _ _ _) as [[sd|e] net']; [|done].
  destruct (py_get sd "CustomerReference" PNone) as [ref|e]; [|done].
  destruct (py_get sd "InvoiceId" PNone) as [inv_id|e]; [|done].
  cbn [w_transactions w_with_net].
  assert (Hinv : forall w1 : world,
    (let '(r, s) :=
       (if py_truthy inv_id
        then fun w0 : world =>
               (Ok (take 1 (List.filter (by_provider_reference (PStr (py_str inv_id)))
                              (w_transactions w0))), w0)
        else fun s : world => (Ok [], s)) w1 in
     match r with
     | Ok a => (if nonempty a then fun s0 : world => (Ok (Some a), s0)
                else fun s0 : world => (Ok None, s0)) s
     | Raise e => (Raise e, s)
     end) = (Ok (Some tx), w') ->
    exists t, tx = [t] /\ t ∈ w_transactions w1 /\ provider_code t = "myfatoorah").
  { intros w1. destruct (py_truthy inv_id); [|done].
    destruct (nonempty (take 1 _)) eqn:Hne; [|done].
    intros [= <- _].
    destruct (search_result _ _ _ eq_refl Hne)
      as (t & ? & ? & ?%by_provider_reference_code).
    by exists t. }
  destruct (py_truthy ref).
  - cbn [w_transactions w_with_net].
    destruct (nonempty (take 1 (List.filter (by_reference ref) _))) eqn:Hne.
    + intros [= <- _].
      destruct (search_result _ _ _ eq_refl Hne) as (t & ? & ? & ?%by_reference_code).
      by exists t.
    + intros H. by apply (Hinv (w_with_net net' w)) in H.
  - cbn [nonempty]. intros H. by apply (Hinv (w_with_net net' w)) in H.
Qed.

(** The round trip in full: what it returns comes from the store, and the
    requests it adds are status requests by payment id, at most one per
    provider, each for a provider with an API key. *)
Lemma lookup_via_gateway_calls (providers : list provider) (payment_id : pyval)
    (w : world) :
  exists found extra,
    lookup_via_gateway providers payment_id w
    = (Ok found, w_with_net (w_net w ++ extra)%list w)
    /\ (List.length extra <= List.length providers)%nat
    /\ Forall (fun call => exists p api_key,
                 p ∈ providers /\ _myfatoorah_get_api_key p = Ok api_key
                 /\ call = lookup_call p api_key payment_id) extra
    /\ (forall tx, found = Some tx ->
          exists t, tx = [t] /\ t ∈ w_transactions w
                    /\ provider_code t = "myfatoorah").
Proof.
  revert w. induction providers as [|p rest IH]; intros w.
  - exists None, []. split; [|by split].
    cbn [lookup_via_gateway mret M_ret]. by rewrite app_nil_r, w_with_net_same.
  - cbn [lookup_via_gateway]. unfold mbind, M_bind, try_except.
    destruct (lookup_with_provider p payment_id w) as [r w1] eqn:Hstep.
    destruct (lookup_with_provider_run p payment_id w) as [r' Hrun].
    rewrite Hstep in Hrun. injection Hrun as <- Hw1.
    set (first := match _myfatoorah_get_api_key p with
                  | Ok api_key => [lookup_call p api_key payment_id]
                  | Raise _ => []
                  end).
    assert (Hw1eq : w1 = w_with_net (w_net w ++ first)%list w).
    { rewrite Hw1. subst first. destruct (_myfatoorah_get_api_key p); [done|].
      by rewrite app_nil_r. }
    assert (Hlen : (List.length first <= 1)%nat).
    { subst first. destruct (_myfatoorah_get_api_key p); cbn; lia. }
    assert (Hfirst : Forall (fun call => exists q api_key,
                       q ∈ p :: rest /\ _myfatoorah_get_api_key q = Ok api_key
                       /\ call = lookup_call q api_key payment_id) first).
    { subst first. destruct (_myfatoorah_get_api_key p) as [k|] eqn:Hk; [|done].
      constructor; [|done]. exists p, k. split; [by left|done]. }
    assert (Hrest : forall extra,
               Forall (fun call => exists q api_key,
                 q ∈ rest /\ _myfatoorah_get_api_key q = Ok api_key
                 /\ call = lookup_call q api_key payment_id) extra ->
               Forall (fun call => exists q api_key,
                 q ∈ p :: rest /\ _myfatoorah_get_api_key q = Ok api_key
                 /\ call = lookup_call q api_key payment_id) (first ++ extra)%list).
    { intros extra Hextra. apply Forall_app. split; [done|].
      eapply Forall_impl; [exact Hextra|].
      intros call (q & k & Hq & Hk & ->). exists q, k. split; [by right|done]. }
    assert (Hcont : forall found extra,
               lookup_via_gateway rest payment_id w1
               = (Ok found, w_with_net (w_net w1 ++ extra)%list w1) ->
               lookup_via_gateway rest payment_id w1
               = (Ok found, w_with_net (w_net w ++ (first ++ extra))%list w)).
    { intros found extra ->. f_equal. rewrite Hw1eq. destruct w.
      cbn. by rewrite <- app_assoc. }
    assert (Htx : w_transactions w1 = w_transactions w) by by rewrite Hw1eq.
    destruct r as [[tx|]|e].
    + exists (Some tx), first. split; [by rewrite <- Hw1eq|].
      split; [cbn [List.length]; lia|]. split.
      * specialize (Hrest [] (Forall_nil_2 _)). by rewrite app_nil_r in Hrest.
      * intros ? [= <-]. by eapply lookup_with_provider_found.
    + destruct (IH w1) as (found & extra & Hrun & Hl & Hcalls & Hfound).
      exists found, (first ++ extra)%list. split; [by apply Hcont|].
      split; [rewrite length_app; cbn [List.length]; lia|].
      split; [by apply Hrest|]. intros tx Htxs. rewrite <- Htx. by apply Hfound.
    + cbn [mret M_ret].
      destruct (IH w1) as (found & extra & Hrun & Hl & Hcalls & Hfound).
      exists found, (first ++ extra)%list. split; [by apply Hcont|].
      split; [rewrite length_app; cbn [List.length]; lia|].
      split; [by apply Hrest|]. intros tx Htxs. rewrite <- Htx. by apply Hfound.
Qed.

(** X14.  What the locator returns for this gateway is one record of the
    store, of this gateway: never an empty result, never several records,
    never a transaction of another provider. *)
Theorem locate_returns_own_transaction
    (n : gmap string pyval) (w w0 w' : world) (tx0 tx : list transaction) :
  super_get_tx_from_notification_data "myfatoorah" n w = (Ok tx0, w0) ->
  List.length tx0 <> 1%nat ->
  _get_tx_from_notification_data "myfatoorah" n w = (Ok tx, w') ->
  exists t, tx = [t] /\ t ∈ w_transactions w0 /\ provider_code t = "myfatoorah".
Proof.
  intros Hsuper Hlen. rewrite (locate_run n w w0 tx0 Hsuper Hlen).
  destruct (nonempty (found_by_reference n w0)) eqn:H1.
  { intros [= <- _]. unfold found_by_reference in *.
    destruct (py_truthy _); [|done].
    destruct (search_result _ _ _ eq_refl H1) as (t & ? & ? & ?%by_reference_code).
    by exists t. }
  destruct (nonempty (found_by_invoice_id n w0)) eqn:H2.
  { intros [= <- _]. unfold found_by_invoice_id in *.
    destruct (py_truthy _); [|done].
    destruct (search_result _ _ _ eq_refl H2)
      as (t & ? & ? & ?%by_provider_reference_code).
    by exists t. }
  cbn zeta. destruct (py_truthy (default PNone (n !! "paymentId"))); [|done].
  destruct (lookup_via_gateway_calls (List.filter active_provider (w_providers w0))
              (default PNone (n !! "paymentId")) w0)
    as (found & extra & -> & _ & _ & Hfound).
  destruct found as [tx1|]; [|done]. intros [= <- _]. by apply Hfound.
Qed.

(** The requests of the round trip: one for each provider asked, in
    order, the providers asked being the first ones of the list. *)
Lemma lookup_via_gateway_asked (providers : list provider) (payment_id : pyval)
    (w : world) :
  exists found m,
    lookup_via_gateway providers payment_id w
    = (Ok found,
       w_with_net (w_net w ++ omap (provider_call payment_id) (take m providers))%list w).
Proof.
  revert w. induction providers as [|p rest IH]; intros w.
  - exists None, 0%nat. cbn [lookup_via_gateway mret M_ret take omap].
    by rewrite app_nil_r, w_with_net_same.
  - cbn [lookup_via_gateway]. unfold mbind, M_bind, try_except.
    destruct (lookup_with_provider_run p payment_id w) as [r ->].
    set (w1 := w_with_net _ w).
    assert (Hw1 : w1 = w_with_net (w_net w ++ omap (provider_call payment_id) [p])%list w).
    { subst w1. cbn [omap list_omap]. unfold provider_call.
      destruct (_myfatoorah_get_api_key p); [done|]. by rewrite app_nil_r. }
    assert (Hnext : forall m,
      w_with_net (w_net w1 ++ omap (provider_call payment_id) (take m rest))%list w1
      = w_with_net (w_net w ++ omap (provider_call payment_id) (take (S m) (p :: rest)))%list
          w).
    { intros m. rewrite Hw1. cbn [take omap list_omap w_net w_with_net].
      unfold w_with_net. cbn. f_equal.
      destruct (provider_call payment_id p); cbn; by rewrite <- app_assoc. }
    destruct r as [[tx|]|e]; cbv [mret M_ret].
    + exists (Some tx), 1%nat. by rewrite Hw1.
    + destruct (IH w1) as (found & m & ->). exists found, (S m). by rewrite Hnext.
    + destruct (IH w1) as (found & m & ->). exists found, (S m). by rewrite Hnext.
Qed.

(** X15.  The locator reads the store and never writes it: transactions,
    providers and notes are as before.  The only requests it sends are
    status requests by payment id, to enabled or test providers in the
    order of the search, one for each provider asked that has an API key:
    so at most one per provider. *)
Theorem locate_footprint
    (n : gmap string pyval) (w w0 : world) (tx0 : list transaction) :
  super_get_tx_from_notification_data "myfatoorah" n w = (Ok tx0, w0) ->
  List.length tx0 <> 1%nat ->
  let w' := (_get_tx_from_notification_data "myfatoorah" n w).2 in
  let providers := List.filter active_provider (w_providers w0) in
  let payment_id := default PNone (n !! "paymentId") in
  w_transactions w' = w_transactions w0
  /\ w_providers w' = w_providers w0
  /\ w_notes w' = w_notes w0
  /\ exists asked,
       w_net w' = (w_net w0 ++ omap (provider_call payment_id) (take asked providers))%list.
Proof.
  intros Hsuper Hlen w' providers payment_id. subst w'.
  rewrite (locate_run n w w0 tx0 Hsuper Hlen).
  assert (Hnone : w_transactions w0 = w_transactions w0
                  /\ w_providers w0 = w_providers w0 /\ w_notes w0 = w_notes w0
                  /\ exists asked,
                       w_net w0
                       = (w_net w0
                          ++ omap (provider_call payment_id) (take asked providers))%list).
  { split; [done|]. split; [done|]. split; [done|]. exists 0%nat.
    by rewrite app_nil_r. }
  destruct (nonempty (found_by_reference n w0)); [done|].
  destruct (nonempty (found_by_invoice_id n w0)); [done|].
  cbn zeta. fold payment_id. destruct (py_truthy payment_id); [|done].
  fold providers.
  destruct (lookup_via_gateway_asked providers payment_id w0) as (found & m & ->).
  assert (Hw : forall r : outcome (list transaction),
            let w' := (r, w_with_net
                            (w_net w0
                             ++ omap (provider_call payment_id) (take m providers))%list
                            w0).2 in
            w_transactions w' = w_transactions w0
            /\ w_providers w' = w_providers w0 /\ w_notes w' = w_notes w0
            /\ exists asked,
                 w_net w'
                 = (w_net w0
                    ++ omap (provider_call payment_id) (take asked providers))%list).
  { intros r. cbn. split; [done|]. split; [done|]. split; [done|]. by exists m. }
  destruct found; apply Hw.
Qed.

(** X16.  The locator fails in one way only: whatever the gateway
    answers, what it raises is the [ValidationError] that names the three
    identifiers of the notification. *)
Theorem locate_raises_not_found_only
    (n : gmap string pyval) (w w0 : world) (tx0 : list transaction) (e : exn) :
  super_get_tx_from_notification_data "myfatoorah" n w = (Ok tx0, w0) ->
  List.length tx0 <> 1%nat ->
  (_get_tx_from_notification_data "myfatoorah" n w).1 = Raise e ->
  e = ValidationError
        (not_found_message (default PNone (n !! "CustomerReference"))
           (default PNone (n !! "paymentId")) (default PNone (n !! "InvoiceId"))).
Proof.
  intros Hsuper Hlen. rewrite (locate_run n w w0 tx0 Hsuper Hlen).
  destruct (nonempty (found_by_reference n w0)); [done|].
  destruct (nonempty (found_by_invoice_id n w0)); [done|].
  cbn zeta. destruct (py_truthy (default PNone (n !! "paymentId")));
    [|by intros [= <-]].
  destruct (lookup_via_gateway_calls (List.filter active_provider (w_providers w0))
              (default PNone (n !! "paymentId")) w0) as (found & extra & -> & _).
  destruct found; [done|]. by intros [= <-].
Qed.

End LocatorMore.

(** ** The reconciler and invoice creation *)

Section ReconcilerMore.
Context `{RT : PyRuntime} `{GW : Gateway} `{LC : Lifecycle} `{IP : InvoicePayload}.

(** X17.  No [ValidationError] leaves the reconciler, whatever the gateway
    answers: a failed status call ends in the error transition instead.  An
    exception that does leave it (status data of an unexpected type) leaves
    it before any transition primitive is called. *)
Theorem reconcile_raises_no_validation_error
    (n : gmap string pyval) (s : rstate) (e : exn) :
  (_process_notification_data n s).1 = Raise e ->
  is_validation_error e = false
  /\ rs_applied (_process_notification_data n s).2 = rs_applied s.
Proof.
  destruct (decide (provider_code (rs_self s) = "myfatoorah")) as [Hcode|Hcode].
  - rewrite (reconcile_run n s Hcode).
    destruct (status_query_key _ _) as [[key key_type]|]; [|done].
    cbn zeta. unfold finish_plan, plan_outcome, plan_transitions. cbn [fst snd].
    destruct (fetch_plan _) as [v [tr|e']] eqn:Hplan; cbn [fst snd]; [done|].
    intros [= <-]. split.
    + eapply fetch_plan_raise. by rewrite Hplan.
    + cbn. by rewrite app_nil_r.
  - by rewrite (reconcile_other_provider n s Hcode).
Qed.

(** X18.  The status request of the reconciler: one request, keyed by the
    payment id of the notification when it has one, else by its invoice
    id, else by the stored provider reference, always as a string; without
    any of the three nothing is sent. *)
Theorem reconcile_status_request
    (n : gmap string pyval) (s : rstate) (api_key : string) :
  provider_code (rs_self s) = "myfatoorah" ->
  _myfatoorah_get_api_key (provider_id (rs_self s)) = Ok api_key ->
  let payment_id := default PNone (n !! "paymentId") in
  let invoice_id := default PNone (n !! "InvoiceId") in
  let stored := provider_reference (rs_self s) in
  let sent := rs_net (_process_notification_data n s).2 in
  let call := status_call (provider_id (rs_self s)) api_key in
  (py_truthy payment_id = true ->
   sent = (rs_net s ++ [call payment_id "PaymentId"])%list)
  /\ (py_truthy payment_id = false -> py_truthy invoice_id = true ->
      sent = (rs_net s ++ [call invoice_id "InvoiceId"])%list)
  /\ (py_truthy payment_id = false -> py_truthy invoice_id = false ->
      char_truthy stored = true ->
      sent = (rs_net s ++ [call (PStr (default "" stored)) "InvoiceId"])%list)
  /\ (py_truthy payment_id = false -> py_truthy invoice_id = false ->
      char_truthy stored = false -> sent = rs_net s).
Proof.
  intros Hcode Hkey payment_id invoice_id stored sent call.
  subst sent. rewrite (reconcile_run n s Hcode).
  fold payment_id invoice_id stored.
  assert (Hsent : forall key key_type,
    rs_net (finish_plan
      (fetch_plan (_myfatoorah_make_request (provider_id (rs_self s))
         "/v2/GetPaymentStatus" (status_query (py_str key) key_type) "POST"
         (rs_net s)).1)
      (with_net (_myfatoorah_make_request (provider_id (rs_self s))
         "/v2/GetPaymentStatus" (status_query (py_str key) key_type) "POST"
         (rs_net s)).2 s)).2
    = (rs_net s ++ [call key key_type])%list).
  { intros key key_type. rewrite make_request_run, Hkey. done. }
  unfold status_query_key, py_or.
  split; [|split; [|split]].
  - intros ->. apply Hsent.
  - intros -> Hinv. rewrite Hinv, Hinv. apply Hsent.
  - intros -> Hinv Hstored. rewrite Hinv.
    unfold stored in *. destruct (provider_reference (rs_self s)) as [r|]; [|done].
    cbn [char_value py_truthy char_truthy default from_option id] in *.
    rewrite Hstored. apply Hsent.
  - intros -> Hinv Hstored. rewrite Hinv.
    unfold stored in *. destruct (provider_reference (rs_self s)) as [r|].
    + cbn [char_value py_truthy char_truthy] in *. by rewrite Hstored.
    + done.
Qed.

(** X19.  The invoice status is read without regard to case: two status
    responses that differ in the case of the letters of [InvoiceStatus]
    only are reconciled in the same way. *)
Theorem reconcile_status_case_insensitive
    (sd : gmap string pyval) (a b : string) (s : rstate) :
  sd !! "InvoiceStatus" = Some (PStr a) ->
  str_lower b = str_lower a ->
  process_status_data (PDict (<["InvoiceStatus" := PStr b]> sd)) s
  = process_status_data (PDict sd) s.
Proof.
  intros Ha Hlow. rewrite !process_status_data_plan. f_equal.
  unfold status_plan, status_head, status_tail.
  cbn [py_get mbind outcome_bind mret outcome_ret].
  rewrite lookup_insert_eq, Ha. rewrite !lookup_insert_ne by done.
  cbn [default from_option id py_lower mbind outcome_bind mret outcome_ret].
  by rewrite Hlow.
Qed.

(** X20.  Invoice creation touches one field: it calls no transition
    primitive and sends at most one request; when it raises, for whatever
    reason, the record is as before, and when it returns, every field but
    [provider_reference] is as before. *)
Theorem invoice_creation_footprint (res : pyval) (s : rstate) :
  let r := _get_specific_processing_values res s in
  rs_applied r.2 = rs_applied s
  /\ (rs_net r.2 = rs_net s \/ exists call, rs_net r.2 = (rs_net s ++ [call])%list)
  /\ (forall e, r.1 = Raise e -> rs_self r.2 = rs_self s)
  /\ (exists v, rs_self r.2 = set_provider_reference v (rs_self s)).
Proof.
  intros r.
  assert (Hr : exists (o : outcome pyval) (net' : list http_call),
    (net' = rs_net s \/ exists call, net' = (rs_net s ++ [call])%list)
    /\ (r = (o, with_net net' s)
        \/ exists a v, o = Ok a
             /\ r = (o, with_self (set_provider_reference v) (with_net net' s)))).
  { subst r. unfold _get_specific_processing_values.
    unfold mbind, M_bind, get_state, request, zoom, lift, modify, raise, mret, M_ret.
    assert (Hs : with_net (rs_net s) s = s) by by destruct s.
    destruct (negb (String.eqb (provider_code (rs_self s)) "myfatoorah")).
    { exists (Ok res), (rs_net s). split; [by left|]. left. by rewrite Hs. }
    cbv beta.
    destruct (_myfatoorah_make_request _ _ _ _ _) as [[rd|e] net'] eqn:Hreq;
      apply make_request_net in Hreq; [|by exists (Raise e), net'; split; [|left]].
    destruct (py_get rd "InvoiceURL" PNone) as [url|e];
      [|by exists (Raise e), net'; split; [|left]].
    destruct (py_get rd "InvoiceId" PNone) as [inv_id|e];
      [|by exists (Raise e), net'; split; [|left]].
    destruct (negb (py_truthy url)); [by eexists _, net'; split; [|left]|].
    eexists _, net'. split; [done|]. right. by eexists _, _. }
  destruct Hr as (o & net' & Hnet & [->|(a & v & -> & ->)]); cbn.
  - split; [done|]. split; [done|]. split; [done|].
    exists (provider_reference (rs_self s)). by destruct (rs_self s).
  - split; [done|]. split; [done|]. split; [done|]. by exists v.
Qed.

End ReconcilerMore.

(** ** The methods together *)

Section Composition.
Context `{RT : PyRuntime} `{GW : Gateway} `{LC : Lifecycle} `{IP : InvoicePayload}
  `{FW : Framework}.

(** X21.  The three overrides leave the other payment providers alone: for
    another provider code the locator is the inherited one, and on a
    transaction of another provider invoice creation returns the generic
    values and the reconciler does nothing; no request is sent. *)
Theorem other_providers_pass_through
    (code : string) (n : gmap string pyval) (res : pyval) (s : rstate) (w : world) :
  code <> "myfatoorah" ->
  provider_code (rs_self s) <> "myfatoorah" ->
  _get_tx_from_notification_data code n w
  = super_get_tx_from_notification_data code n w
  /\ _get_specific_processing_values res s = (Ok res, s)
  /\ _process_notification_data n s = (Ok tt, s).
Proof.
  intros Hcode Hself.
  apply String.eqb_neq in Hcode. apply String.eqb_neq in Hself.
  split; [|split].
  - unfold _get_tx_from_notification_data, mbind, M_bind.
    destruct (super_get_tx_from_notification_data code n w) as [[tx|e] w0]; [|done].
    by rewrite Hcode.
  - unfold _get_specific_processing_values, mbind, M_bind, get_state.
    by rewrite Hself.
  - unfold _process_notification_data, mbind, M_bind, get_state.
    by rewrite Hself.
Qed.

(** What [search(domain, limit=1)] returns when a record matches. *)
Lemma search_finds (domain : transaction -> bool) (l : list transaction)
    (t : transaction) :
  t ∈ l -> domain t = true ->
  exists u, take 1 (List.filter domain l) = [u] /\ u ∈ l /\ domain u = true.
Proof.
  intros Hin Hd.
  assert (Hf : In t (List.filter domain l)).
  { apply filter_In. split; [by apply list_elem_of_In|done]. }
  destruct (List.filter domain l) as [|u rest] eqn:Hfilter; [done|].
  exists u. split; [by destruct rest|].
  assert (Hu : In u (List.filter domain l)) by (rewrite Hfilter; by left).
  apply filter_In in Hu as [Hu ?]. split; [by apply list_elem_of_In|done].
Qed.

Lemma redirect_data_lookups (payment_id status : string) :
  redirect_notification_data payment_id status !! "CustomerReference" = None
  /\ redirect_notification_data payment_id status !! "InvoiceId" = None
  /\ redirect_notification_data payment_id status !! "paymentId"
     = Some (PStr payment_id).
Proof.
  unfold redirect_notification_data.
  by rewrite lookup_insert_eq, !lookup_insert_ne, !lookup_empty by done.
Qed.

(** X22.  A redirect is resolved through the gateway: its notification
    carries the payment id only, so the locator asks the first enabled or
    test provider for the payment, and when the answer names the reference
    of a stored transaction of this gateway, that lookup returns a record
    with this reference, after exactly one request. *)
Theorem redirect_located_through_gateway
    (payment_id status : string) (w w0 : world) (tx0 : list transaction)
    (p : provider) (rest : list provider) (api_key : string)
    (sd : gmap string pyval) (r : string) (t : transaction) :
  let n := redirect_notification_data payment_id status in
  let call := lookup_call p api_key (PStr payment_id) in
  super_get_tx_from_notification_data "myfatoorah" n w = (Ok tx0, w0) ->
  List.length tx0 <> 1%nat ->
  payment_id <> "" ->
  List.filter active_provider (w_providers w0) = p :: rest ->
  _myfatoorah_get_api_key p = Ok api_key ->
  handle_reply (http_send (w_net w0) call) = Ok (PDict sd) ->
  sd !! "CustomerReference" = Some (PStr r) ->
  r <> "" ->
  t ∈ w_transactions w0 -> reference t = r -> provider_code t = "myfatoorah" ->
  exists u,
    _get_tx_from_notification_data "myfatoorah" n w
    = (Ok [u], w_with_net (w_net w0 ++ [call])%list w0)
    /\ u ∈ w_transactions w0 /\ reference u = r /\ provider_code u = "myfatoorah".
Proof.
  intros n call Hsuper Hlen Hpid Hproviders Hkey Hreply Hsd Hr Hin Href Hcode.
  destruct (redirect_data_lookups payment_id status) as (Hn1 & Hn2 & Hn3).
  rewrite (locate_run n w w0 tx0 Hsuper Hlen).
  unfold found_by_reference, found_by_invoice_id. subst n.
  rewrite Hn1, Hn2, Hn3. cbn [default from_option id py_truthy nonempty].
  apply String.eqb_neq in Hpid. rewrite Hpid. cbn [negb].
  rewrite Hproviders. cbn [lookup_via_gateway].
  unfold mbind, M_bind, try_except.
  destruct (search_finds (by_reference (PStr r)) (w_transactions w0) t Hin)
    as (u & Htake & Hu & Hdom).
  { unfold by_reference, leaf_eq. rewrite Href, Hcode.
    by rewrite bool_decide_eq_true_2. }
  assert (Hstep : lookup_with_provider p (PStr payment_id) w0
                  = (Ok (Some [u]), w_with_net (w_net w0 ++ [call])%list w0)).
  { unfold lookup_with_provider, mbind, M_bind, zoom, lift, search_transactions.
    rewrite make_request_run, Hkey. cbn zeta.
    change (make_call "POST" (_myfatoorah_get_api_url p +:+ "/v2/GetPaymentStatus")
              ("Bearer " +:+ api_key)
              (PDict (<["Key" := PStr payment_id]>
                     (<["KeyType" := PStr "PaymentId"]> ∅)))) with call.
    rewrite Hreply. cbn [py_get mret outcome_ret]. rewrite Hsd.
    cbn [default from_option id py_truthy].
    apply String.eqb_neq in Hr. rewrite Hr. cbn [negb w_transactions w_with_net].
    by rewrite Htake. }
  rewrite Hstep. exists u. split; [done|]. split; [done|].
  unfold by_reference, leaf_eq in Hdom.
  apply andb_prop in Hdom as [Href'%bool_decide_eq_true Hcode'%String.eqb_eq].
  split; [congruence|done].
Qed.

(** X23.  Creation and lookup round trip: after an invoice is created, a
    notification that carries the invoice id the gateway answered with (as
    a number or as text) and no reference finds, in its second tier and
    without any request, the record the id was written on, if the store
    holds no other record of this gateway with that id. *)
Theorem created_invoice_is_located
    (res : pyval) (s : rstate) (d : gmap string pyval) (net' : list http_call)
    (invoice_id v : pyval) (n : gmap string pyval) (w w0 : world)
    (tx0 : list transaction) :
  provider_code (rs_self s) = "myfatoorah" ->
  _myfatoorah_make_request (provider_id (rs_self s)) "/v2/SendPayment"
    (send_payment_payload (rs_self s)) "POST" (rs_net s) = (Ok (PDict d), net') ->
  py_truthy (default PNone (d !! "InvoiceURL")) = true ->
  d !! "InvoiceId" = Some invoice_id -> py_truthy invoice_id = true ->
  let created := rs_self (_get_specific_processing_values res s).2 in
  created ∈ w_transactions w0 ->
  (forall t, t ∈ w_transactions w0 -> provider_code t = "myfatoorah" ->
             provider_reference t = provider_reference created -> t = created) ->
  super_get_tx_from_notification_data "myfatoorah" n w = (Ok tx0, w0) ->
  List.length tx0 <> 1%nat ->
  py_truthy (default PNone (n !! "CustomerReference")) = false ->
  n !! "InvoiceId" = Some v -> py_truthy v = true -> py_str v = py_str invoice_id ->
  _get_tx_from_notification_data "myfatoorah" n w = (Ok [created], w0).
Proof.
  intros Hcode Hreq Hurl Hinv Hinv_true created Hin Hunique Hsuper Hlen Href
    Hv Hv_true Hstr.
  assert (Hcreated : created
                     = set_provider_reference (Some (py_str invoice_id)) (rs_self s)).
  { subst created. unfold _get_specific_processing_values.
    unfold mbind, M_bind, get_state, request, zoom, lift, modify, raise, mret, M_ret.
    rewrite Hcode. cbn [String.eqb Ascii.eqb Bool.eqb negb].
    rewrite Hreq. cbn [py_get mret outcome_ret]. rewrite Hinv in *.
    cbn [default from_option id]. rewrite Hurl, Hinv_true. done. }
  rewrite (locate_run n w w0 tx0 Hsuper Hlen).
  unfold found_by_reference, found_by_invoice_id.
  rewrite Href, Hv. cbn [default from_option id nonempty]. rewrite Hv_true.
  destruct (search_finds (by_provider_reference (PStr (py_str v)))
              (w_transactions w0) created Hin) as (u & Htake & Hu & Hdom).
  { unfold by_provider_reference, leaf_eq. rewrite Hstr, Hcreated.
    cbn [provider_reference provider_code set_provider_reference].
    rewrite Hcode. by rewrite bool_decide_eq_true_2. }
  rewrite Htake. cbn [nonempty].
  unfold by_provider_reference, leaf_eq in Hdom.
  apply andb_prop in Hdom as [Href'%bool_decide_eq_true Hcode'%String.eqb_eq].
  rewrite (Hunique u Hu Hcode'); [done|].
  rewrite Href', Hstr, Hcreated. done.
Qed.

End Composition.

(** ** What the client raises *)

Section ClientErrors.
Context `{RT : PyRuntime} `{GW : Gateway} `{LC : Lifecycle}.

Lemma py_iter_raise (v : pyval) (e : exn) : py_iter v = Raise e -> e = TypeError.
Proof. destruct v; cbn; by intros [= <-]. Qed.

Lemma py_join_raise (sep : string) (l : list pyval) (e : exn) :
  py_join sep l = Raise e -> e = TypeError.
Proof.
  induction l as [|v l IH]; [done|].
  destruct v as [| | |s| |]; cbn [py_join]; try by intros [= <-].
  destruct l as [|v' l']; [done|].
  intros [H|(r & _ & H)]%bind_raise; [by apply IH|done].
Qed.

Lemma mapM_get_dicts (k : string) (d : pyval) (l : list pyval) :
  exists r, mapM (fun err => py_get err k d) (List.filter is_dict l) = Ok r.
Proof.
  induction l as [|v l [r IH]]; [by eexists|].
  destruct v; cbn [List.filter is_dict]; try by exists r.
  cbn [mapM py_get]. unfold mbind, outcome_bind, mret, outcome_ret in *.
  rewrite IH. by eexists.
Qed.

Lemma error_block_raise (message validation_errors : pyval) (e : exn) :
  ((if py_truthy validation_errors then
      items ← py_iter validation_errors;
      errors ← mapM (fun err => py_get err "Error" (PStr ""))
                    (List.filter is_dict items);
      details ← py_join "; " errors;
      mret (py_str message +:+ " — " +:+ details)
    else mret (py_str message))
   ≫= fun error_message : string =>
        throw (A := pyval) (ValidationError ("MyFatoorah: " +:+ error_message)))
  = Raise e ->
  (exists m, e = ValidationError m)
  \/ (e = TypeError /\ py_truthy validation_errors = true).
Proof.
  intros [H|(m & _ & H)]%bind_raise.
  - destruct (py_truthy validation_errors); [|done].
    right. split; [|done].
    apply bind_raise in H as [H|(items & _ & H)]; [by eapply py_iter_raise|].
    apply bind_raise in H as [H|(errors & _ & H)].
    { destruct (mapM_get_dicts "Error" (PStr "") items) as [r Hr]. congruence. }
    apply bind_raise in H as [H|(details & _ & H)]; [by eapply py_join_raise|done].
  - left. injection H as <-. by eexists.
Qed.

(** X24.  What the client raises on a reply is a [ValidationError], with
    three exceptions: a [RecursionError] when the response body nests too
    deeply to be decoded or to be formatted for the log, an
    [AttributeError] when the body is JSON but not an object, and a
    [TypeError] from building the message of a failed request whose
    [ValidationErrors] are not as expected. *)
Theorem client_error_kinds (reply : http_reply) (e : exn) :
  handle_reply reply = Raise e ->
  (exists m, e = ValidationError m)
  \/ (e = RecursionError
      /\ ((exists status_code, reply = DeepResponse status_code)
          \/ exists status_code v,
               reply = Response status_code (Some v) /\ pformat_too_deep v = true))
  \/ (e = AttributeError
      /\ exists status_code v, reply = Response status_code (Some v) /\ is_dict v = false)
  \/ (e = TypeError
      /\ exists status_code rd,
           reply = Response status_code (Some (PDict rd))
           /\ py_truthy (default PNone (rd !! "ValidationErrors")) = true).
Proof.
  destruct reply as [| | |status_code [v|]|status_code]; cbn [handle_reply];
    try (intros [= <-]; left; by eexists).
  2:{ intros [= <-]. right; left. split; [done|]. left. by eexists. }
  destruct (pformat_too_deep v) eqn:Hfmt.
  { intros [= <-]. right; left. split; [done|]. right. by eexists _, _. }
  cbn [mbind outcome_bind mret outcome_ret].
  destruct v as [|b|z|str|l|rd].
  1-5: destruct (negb (status_code =? 200)%Z); cbn; intros [= <-];
       right; right; left; (split; [done|]); by eexists _, _.
  cbn [py_get mbind outcome_bind mret outcome_ret].
  assert (Hblock : forall e,
    ((if py_truthy (default PNone (rd !! "ValidationErrors")) then
        items ← py_iter (default PNone (rd !! "ValidationErrors"));
        errors ← mapM (fun err => py_get err "Error" (PStr ""))
                      (List.filter is_dict items);
        details ← py_join "; " errors;
        mret (py_str (default (PStr "Unknown error") (rd !! "Message"))
              +:+ " — " +:+ details)
      else mret (py_str (default (PStr "Unknown error") (rd !! "Message"))))
     ≫= fun error_message : string =>
          throw (A := pyval) (ValidationError ("MyFatoorah: " +:+ error_message)))
    = Raise e ->
    (exists m, e = ValidationError m)
    \/ (e = RecursionError
        /\ ((exists c, Response status_code (Some (PDict rd)) = DeepResponse c)
            \/ exists c v, Response status_code (Some (PDict rd)) = Response c (Some v)
                           /\ pformat_too_deep v = true))
    \/ (e = AttributeError
        /\ exists c v, Response status_code (Some (PDict rd)) = Response c (Some v)
                       /\ is_dict v = false)
    \/ (e = TypeError
        /\ exists c rd0,
             Response status_code (Some (PDict rd)) = Response c (Some (PDict rd0))
             /\ py_truthy (default PNone (rd0 !! "ValidationErrors")) = true)).
  { intros e0 [H|[-> H]]%error_block_raise; [by left|].
    right; right; right. split; [done|]. by eexists _, _. }
  destruct (negb (status_code =? 200)%Z); cbn [mbind outcome_bind];
    [apply Hblock|].
  destruct (negb (py_truthy (default PNone (rd !! "IsSuccess")))); [apply Hblock|done].
Qed.

(** X25.  The reconciler catches the [ValidationError] of its status call
    and nothing else: any other exception of the client (a response body
    that is not an object, for one) leaves the reconciler as it is, with
    the record untouched and no transition primitive called. *)
Theorem reconcile_propagates_other_errors
    (n : gmap string pyval) (s : rstate) (key : pyval) (key_type : string)
    (e : exn) (net' : list http_call) :
  provider_code (rs_self s) = "myfatoorah" ->
  status_query_key (default PNone (n !! "paymentId"))
    (py_or (default PNone (n !! "InvoiceId"))
           (char_value (provider_reference (rs_self s)))) = Some (key, key_type) ->
  _myfatoorah_make_request (provider_id (rs_self s)) "/v2/GetPaymentStatus"
    (status_query (py_str key) key_type) "POST" (rs_net s) = (Raise e, net') ->
  is_validation_error e = false ->
  _process_notification_data n s = (Raise e, with_net net' s).
Proof.
  intros Hcode Hquery Hreq He.
  rewrite (reconcile_run n s Hcode), Hquery. cbn zeta. rewrite Hreq. cbn [fst snd].
  unfold finish_plan, plan_outcome, plan_transitions.
  destruct e; try done; cbn [fetch_plan fst snd]; by rewrite run_plan_nil.
Qed.

End ClientErrors.

(** ** The properties at work *)

Lemma rejected_request_message_witness :
  @handle_reply sample_runtime rejected_reply
  = Raise (ValidationError
      ("MyFatoorah: " +:+ "Invalid data" +:+ " — "
       +:+ String.concat "; " (snd <$> rejected_fields))).
Proof.
  apply (@rejected_request_message sample_runtime 400 rejected_body "Invalid data"
           rejected_fields); [lia|reflexivity|reflexivity|reflexivity|discriminate].
Defined.

Lemma verify_rejects_upper_case_witness :
  @_myfatoorah_verify_webhook_signature sample_runtime sample_provider "{}"
    (str_upper (@hmac_sha256_hexdigest sample_runtime "s3cret" "{}"))
  = Ok false.
Proof.
  apply (@verify_rejects_upper_case sample_runtime sample_provider "{}");
    [reflexivity|vm_compute; discriminate].
Defined.

Lemma webhook_effects_need_signature_witness :
  exists event_data p,
    @json_loads sample_runtime payment_event_body = Some event_data
    /\ p ∈ List.filter webhook_provider [sample_provider]
    /\ @_myfatoorah_verify_webhook_signature sample_runtime p payment_event_body
         (@hmac_sha256_hexdigest sample_runtime "s3cret" payment_event_body)
       = Ok true.
Proof.
  apply (@webhook_effects_need_signature sample_runtime (constant_gateway Timeout)
           sample_framework
           (signed_request payment_event_body
              (@hmac_sha256_hexdigest sample_runtime "s3cret" payment_event_body))
           (sample_world [] [sample_provider])).
  right. exists "ok", "Event received but processing failed".
  vm_compute; reflexivity.
Defined.

Lemma webhook_failure_modes_witness :
  (@myfatoorah_webhook sample_runtime (constant_gateway Timeout) sample_framework
     (signed_request "{}" non_ascii_signature) (sample_world [] [sample_provider])).1
  = Raise TypeError
  /\ (@myfatoorah_webhook sample_runtime (constant_gateway Timeout) sample_framework
        (signed_request "{}" non_ascii_signature) (sample_world [] [sample_provider])).2
     = sample_world [] [sample_provider].
Proof.
  assert (H : (@myfatoorah_webhook sample_runtime (constant_gateway Timeout)
                 sample_framework (signed_request "{}" non_ascii_signature)
                 (sample_world [] [sample_provider])).1 = Raise TypeError)
    by (vm_compute; reflexivity).
  split; [exact H|].
  apply (@webhook_failure_modes sample_runtime (constant_gateway Timeout)
           sample_framework (signed_request "{}" non_ascii_signature)
           (sample_world [] [sample_provider]) TypeError H).
Defined.

Lemma other_events_change_nothing_witness :
  @_process_webhook_event sample_runtime (constant_gateway Timeout) sample_framework
    (PStr "BALANCE_TRANSFERRED") (PDict refund_event_data) sample_provider
    (sample_world [invoiced_tx] [sample_provider])
  = (Ok tt, sample_world [invoiced_tx] [sample_provider]).
Proof.
  apply (@other_events_change_nothing sample_runtime (constant_gateway Timeout)
           sample_framework (PStr "BALANCE_TRANSFERRED") refund_event_data refund_data);
    reflexivity.
Defined.

Lemma refund_event_posts_note_witness :
  @_process_webhook_event sample_runtime (constant_gateway Timeout) sample_framework
    (PStr "REFUND_STATUS_CHANGED") (PDict refund_event_data) sample_provider
    (sample_world [other_provider_tx; invoiced_tx] [sample_provider])
  = (Ok tt,
     {| w_transactions := [other_provider_tx; invoiced_tx];
        w_providers := [sample_provider]; w_net := [];
        w_notes := [(7, "MyFatoorah Webhook: Refund status changed to 'refunded' for invoice 6012345.")] |}).
Proof.
  etrans.
  - apply (@refund_event_posts_note sample_runtime (constant_gateway Timeout)
             sample_framework "REFUND_STATUS_CHANGED" refund_event_data refund_data
             "Refunded"); [by left|reflexivity|reflexivity].
  - vm_compute; reflexivity.
Defined.

Lemma locate_returns_own_transaction_witness :
  exists t, [sample_tx] = [t]
            /\ t ∈ [other_provider_tx; sample_tx]
            /\ provider_code t = "myfatoorah".
Proof.
  apply (@locate_returns_own_transaction sample_runtime (constant_gateway Timeout)
           sample_framework (reference_payload "S00042")
           (sample_world [other_provider_tx; sample_tx] [sample_provider])
           (sample_world [other_provider_tx; sample_tx] [sample_provider])
           (sample_world [other_provider_tx; sample_tx] [sample_provider])
           [] [sample_tx]);
    [reflexivity|discriminate|vm_compute; reflexivity].
Defined.

Lemma locate_footprint_witness :
  let w := sample_world [sample_tx] [stripe_provider; sample_provider] in
  let w' := (@_get_tx_from_notification_data sample_runtime (constant_gateway Timeout)
               sample_framework "myfatoorah" webhook_like_payload w).2 in
  w_transactions w' = [sample_tx]
  /\ w_providers w' = [stripe_provider; sample_provider]
  /\ w_notes w' = []
  /\ w_net w' = [@lookup_call sample_provider "token" (PStr "0808")].
Proof.
  intros w w'.
  destruct (@locate_footprint sample_runtime (constant_gateway Timeout)
              sample_framework webhook_like_payload w w [] eq_refl
              ltac:(discriminate)) as (H1 & H2 & H3 & _).
  split; [exact H1|]. split; [exact H2|]. split; [exact H3|].
  vm_compute; reflexivity.
Defined.

Lemma locate_raises_not_found_only_witness :
  let e := ValidationError
    "MyFatoorah: No transaction found matching the notification data (reference: S00099, paymentId: 0808, invoiceId: None)." in
  (@_get_tx_from_notification_data sample_runtime (constant_gateway Timeout)
     sample_framework "myfatoorah" webhook_like_payload
     (sample_world [sample_tx] [sample_provider])).1 = Raise e
  /\ e = ValidationError
           (@not_found_message sample_runtime (PStr "S00099") (PStr "0808") PNone).
Proof.
  intros e.
  assert (H : (@_get_tx_from_notification_data sample_runtime (constant_gateway Timeout)
                 sample_framework "myfatoorah" webhook_like_payload
                 (sample_world [sample_tx] [sample_provider])).1 = Raise e)
    by (vm_compute; reflexivity).
  split; [exact H|].
  apply (@locate_raises_not_found_only sample_runtime (constant_gateway Timeout)
           sample_framework webhook_like_payload
           (sample_world [sample_tx] [sample_provider])
           (sample_world [sample_tx] [sample_provider]) [] e eq_refl
           ltac:(discriminate) H).
Defined.

Lemma reconcile_raises_no_validation_error_witness :
  let r := @_process_notification_data sample_runtime
             (constant_gateway (success_reply malformed_data)) guarded_lifecycle
             (<["paymentId" := PStr "0808"]> ∅) sample_rstate in
  r.1 = Raise AttributeError
  /\ is_validation_error AttributeError = false
  /\ rs_applied r.2 = [].
Proof.
  intros r.
  assert (H : r.1 = Raise AttributeError) by (vm_compute; reflexivity).
  split; [exact H|].
  apply (@reconcile_raises_no_validation_error sample_runtime
           (constant_gateway (success_reply malformed_data)) guarded_lifecycle
           (<["paymentId" := PStr "0808"]> ∅) sample_rstate AttributeError H).
Defined.

Lemma reconcile_status_request_witness :
  rs_net (@_process_notification_data sample_runtime (constant_gateway Timeout)
            guarded_lifecycle (invoice_id_payload (PInt 6012345)) sample_rstate).2
  = [@status_call sample_runtime sample_provider "token" (PInt 6012345) "InvoiceId"].
Proof.
  apply (proj1 (proj2 (@reconcile_status_request sample_runtime
                         (constant_gateway Timeout) guarded_lifecycle
                         (invoice_id_payload (PInt 6012345)) sample_rstate "token"
                         eq_refl eq_refl))); reflexivity.
Defined.

Lemma reconcile_status_case_insensitive_witness :
  @process_status_data sample_runtime guarded_lifecycle
    (PDict (<["InvoiceStatus" := PStr "PAID"]> paid_data)) sample_rstate
  = @process_status_data sample_runtime guarded_lifecycle (PDict paid_data) sample_rstate.
Proof.
  apply (@reconcile_status_case_insensitive sample_runtime guarded_lifecycle
           paid_data "Paid" "PAID" sample_rstate); reflexivity.
Defined.

Lemma other_providers_pass_through_witness :
  @_get_tx_from_notification_data sample_runtime (constant_gateway Timeout)
    sample_framework "stripe" (reference_payload "S00043")
    (sample_world [other_provider_tx] [stripe_provider])
  = @super_get_tx_from_notification_data sample_framework "stripe"
      (reference_payload "S00043") (sample_world [other_provider_tx] [stripe_provider])
  /\ @_get_specific_processing_values sample_runtime (constant_gateway Timeout)
       sample_payload PNone other_rstate = (Ok PNone, other_rstate)
  /\ @_process_notification_data sample_runtime (constant_gateway Timeout)
       guarded_lifecycle (reference_payload "S00043") other_rstate
     = (Ok tt, other_rstate).
Proof.
  apply (@other_providers_pass_through sample_runtime (constant_gateway Timeout)
           guarded_lifecycle sample_payload sample_framework "stripe"
           (reference_payload "S00043") PNone other_rstate
           (sample_world [other_provider_tx] [stripe_provider])); discriminate.
Defined.

Lemma redirect_located_through_gateway_witness :
  exists u,
    @_get_tx_from_notification_data sample_runtime
      (constant_gateway (success_reply referenced_data)) sample_framework "myfatoorah"
      (redirect_notification_data "0808" "success")
      (sample_world [other_provider_tx; sample_tx] [stripe_provider; sample_provider])
    = (Ok [u],
       w_with_net
         ([] ++ [@lookup_call sample_provider "token" (PStr "0808")])%list
         (sample_world [other_provider_tx; sample_tx] [stripe_provider; sample_provider]))
    /\ u ∈ [other_provider_tx; sample_tx]
    /\ reference u = "S00042" /\ provider_code u = "myfatoorah".
Proof.
  apply (@redirect_located_through_gateway sample_runtime
           (constant_gateway (success_reply referenced_data)) sample_framework
           "0808" "success"
           (sample_world [other_provider_tx; sample_tx] [stripe_provider; sample_provider])
           (sample_world [other_provider_tx; sample_tx] [stripe_provider; sample_provider])
           [] sample_provider [] "token" referenced_data "S00042" sample_tx);
    try reflexivity; try discriminate.
  by right; left.
Defined.

Lemma created_invoice_is_located_witness :
  @_get_tx_from_notification_data sample_runtime
    (constant_gateway (success_reply created_data)) sample_framework "myfatoorah"
    (invoice_id_payload (PStr "6012345"))
    (sample_world [other_provider_tx; invoiced_tx] [sample_provider])
  = (Ok [invoiced_tx], sample_world [other_provider_tx; invoiced_tx] [sample_provider]).
Proof.
  apply (@created_invoice_is_located sample_runtime
           (constant_gateway (success_reply created_data)) sample_payload
           sample_framework PNone sample_rstate created_data
           [sample_call "/v2/SendPayment" (PDict ∅)] (PInt 6012345) (PStr "6012345")
           (invoice_id_payload (PStr "6012345"))
           (sample_world [other_provider_tx; invoiced_tx] [sample_provider])
           (sample_world [other_provider_tx; invoiced_tx] [sample_provider]) []);
    try reflexivity; try discriminate.
  - by right; left.
  - intros t Ht Hcode _. apply elem_of_cons in Ht as [->|Ht].
    + vm_compute in Hcode. discriminate Hcode.
    + apply list_elem_of_singleton in Ht as ->. reflexivity.
Defined.

Lemma client_error_kinds_witness :
  @handle_reply sample_runtime (DeepResponse 200) = Raise RecursionError
  /\ ((exists m, RecursionError = ValidationError m)
      \/ (RecursionError = RecursionError
          /\ ((exists status_code, DeepResponse 200 = DeepResponse status_code)
              \/ exists status_code v,
                   DeepResponse 200 = Response status_code (Some v)
                   /\ @pformat_too_deep sample_runtime v = true))
      \/ (RecursionError = AttributeError
          /\ exists status_code v,
               DeepResponse 200 = Response status_code (Some v) /\ is_dict v = false)
      \/ (RecursionError = TypeError
          /\ exists status_code rd,
               DeepResponse 200 = Response status_code (Some (PDict rd))
               /\ py_truthy (default PNone (rd !! "ValidationErrors")) = true)).
Proof.
  split; [reflexivity|].
  apply (@client_error_kinds sample_runtime (DeepResponse 200) RecursionError).
  reflexivity.
Defined.

Lemma reconcile_propagates_other_errors_witness :
  @_process_notification_data sample_runtime (constant_gateway array_reply)
    guarded_lifecycle (<["paymentId" := PStr "0808"]> ∅) sample_rstate
  = (Raise AttributeError,
     with_net [sample_call "/v2/GetPaymentStatus" (status_query "0808" "PaymentId")]
       sample_rstate).
Proof.
  apply (@reconcile_propagates_other_errors sample_runtime
           (constant_gateway array_reply) guarded_lifecycle
           (<["paymentId" := PStr "0808"]> ∅) sample_rstate (PStr "0808") "PaymentId"
           AttributeError
           [sample_call "/v2/GetPaymentStatus" (status_query "0808" "PaymentId")]);
    vm_compute; reflexivity.
Defined.
